(** * cloud-code-bot: the Basic-Auth gate and the request dispatcher

    A shallow embedding of the Cloudflare Worker of this repository:
    [verifyBasicAuth], the three variants of [handleFetch] (KV + R2 + D1,
    KV + D1, KV only), and the limits table with [checkLimits].

    Conventions of the embedding.
    - A JavaScript string is a [string] of 8-bit characters (the Latin-1
      range, on which [btoa] does not throw); the module [JS16] has the
      credentials as UTF-16 code units, with the [btoa] that throws.
    - A JavaScript number is an integer [Z], printed in decimal, as
      JavaScript prints an integer below 10^21 that it represents exactly
      (every value of [Date.now()] is one); from 10^21 on JavaScript
      prints an exponent, which is not modelled.
    - [undefined] / [null] results of the platform calls are [None].
    - A [Request] is described by what the handler reads from it: the
      method, the pathname of its parsed URL (the module [URL] computes
      it from the text of a URL), its headers, and the results of
      [request.json()] and [request.formData()].
    - The KV namespace and the R2 bucket are finite maps; the SQL engine
      and the other choices of the hosting runtime are the methods of the
      class [Runtime].
    - The bindings of [env] are threaded as explicit state; a thrown
      exception is the [Throw] outcome. *)

From Stdlib Require Import ZArith NArith Ascii String List Lia.
From Stdlib Require Import DecimalString.
From Stdlib Require DecimalPos DecimalZ.
From stdpp Require Import base option gmap strings.

Import ListNotations.
Local Open Scope string_scope.
Local Open Scope Z_scope.

(** ** Strings as the source uses them *)

Module JSString.

(** The double-quote character. *)
Definition dquote : ascii := "034"%char.

(** [s.startsWith(p)]. *)
Definition startsWith (s p : string) : bool := String.prefix p s.

(** [s.slice(n)] for a non-negative [n]. *)
Fixpoint slice (n : nat) (s : string) : string :=
  match n, s with
  | O, _ => s
  | S n', String _ s' => slice n' s'
  | S _, EmptyString => EmptyString
  end.

(** [s.replace(pat, rep)] for a string pattern: only the first occurrence
    is replaced.  [rep] is taken literally (the source passes ['']). *)
Fixpoint replace (pat rep s : string) : string :=
  if String.prefix pat s
  then rep +:+ slice (String.length pat) s
  else match s with
       | EmptyString => EmptyString
       | String c s' => String c (replace pat rep s')
       end.

(** ASCII lower-casing, as used to compare header names. *)
Definition lower_ascii (c : ascii) : ascii :=
  let n := N_of_ascii c in
  if ((65 <=? n) && (n <=? 90))%N then ascii_of_N (n + 32) else c.

Fixpoint toLowerCase (s : string) : string :=
  match s with
  | EmptyString => EmptyString
  | String c s' => String (lower_ascii c) (toLowerCase s')
  end.

(** A template literal's rendering of an integer below 10^21. *)
Definition Number_toString (z : Z) : string :=
  NilZero.string_of_int (Z.to_int z).

End JSString.

Import JSString.

(** ** [btoa]: base64 of a Latin-1 string *)

Module Base64.

Definition alphabet : string :=
  "ABCDEFGHIJKLMNOPQRSTUVWXYZabcdefghijklmnopqrstuvwxyz0123456789+/".

Definition sextet (n : N) : ascii :=
  match String.get (N.to_nat n) alphabet with
  | Some c => c
  | None => "="%char
  end.

Fixpoint encode (bytes : list N) : string :=
  match bytes with
  | [] => EmptyString
  | [a] =>
      String (sextet (N.shiftr a 2))
        (String (sextet (N.shiftl (N.land a 3) 4)) "==")
  | [a; b] =>
      String (sextet (N.shiftr a 2))
        (String (sextet (N.lor (N.shiftl (N.land a 3) 4) (N.shiftr b 4)))
           (String (sextet (N.shiftl (N.land b 15) 2)) "="))
  | a :: b :: c :: rest =>
      String (sextet (N.shiftr a 2))
        (String (sextet (N.lor (N.shiftl (N.land a 3) 4) (N.shiftr b 4)))
           (String (sextet (N.lor (N.shiftl (N.land b 15) 2) (N.shiftr c 6)))
              (String (sextet (N.land c 63)) (encode rest))))
  end.

Definition btoa (s : string) : string :=
  encode (map N_of_ascii (list_ascii_of_string s)).

End Base64.

Import Base64.

(** ** JSON values and [JSON.stringify] *)

#[local] Set Warnings "-register-all".

Inductive JSON : Type :=
| JNull
| JBool (b : bool)
| JNum (z : Z)
| JStr (s : string)
| JArr (items : list JSON)
| JObj (members : list (string * JSON)).

(** A JavaScript value as the handler meets it: [None] is [undefined]. *)
Abbreviation JSValue := (option JSON).

Module JSONText.

Definition hex_digit (n : N) : ascii :=
  match String.get (N.to_nat n) "0123456789abcdef" with
  | Some c => c
  | None => "0"%char
  end.

(** The escape of one character inside a JSON string literal. *)
Definition escape (c : ascii) : string :=
  let n := N_of_ascii c in
  if (n =? 34)%N then String "\" (String dquote EmptyString)
  else if (n =? 92)%N then "\\"
  else if (n =? 8)%N then "\b"
  else if (n =? 9)%N then "\t"
  else if (n =? 10)%N then "\n"
  else if (n =? 12)%N then "\f"
  else if (n =? 13)%N then "\r"
  else if (n <? 32)%N
       then "\u00" +:+ String (hex_digit (N.shiftr n 4))
                         (String (hex_digit (N.land n 15)) EmptyString)
  else String c EmptyString.

Fixpoint escape_all (s : string) : string :=
  match s with
  | EmptyString => EmptyString
  | String c s' => escape c +:+ escape_all s'
  end.

Definition quote (s : string) : string :=
  String dquote (escape_all s +:+ String dquote EmptyString).

(** [JSON.stringify] of a defined value.  The members of an object are
    listed in the object's own enumeration order. *)
Fixpoint stringify (v : JSON) : string :=
  match v with
  | JNull => "null"
  | JBool true => "true"
  | JBool false => "false"
  | JNum z => Number_toString z
  | JStr s => quote s
  | JArr items =>
      "[" +:+
      (fix elements (l : list JSON) : string :=
         match l with
         | [] => EmptyString
         | x :: r =>
             match r with
             | [] => stringify x
             | _ :: _ => stringify x +:+ "," +:+ elements r
             end
         end) items +:+ "]"
  | JObj members =>
      "{" +:+
      (fix properties (l : list (string * JSON)) : string :=
         match l with
         | [] => EmptyString
         | (k, x) :: r =>
             match r with
             | [] => quote k +:+ ":" +:+ stringify x
             | _ :: _ => quote k +:+ ":" +:+ stringify x +:+ "," +:+ properties r
             end
         end) members +:+ "}"
  end.

(** [JSON.stringify(v)]: [undefined] for [undefined]. *)
Definition JSON_stringify (v : JSValue) : option string :=
  match v with
  | Some j => Some (stringify j)
  | None => None
  end.

(** An object literal [{ k1: v1, ... }] as [JSON.stringify] sees it:
    the properties whose value is [undefined] are left out. *)
Fixpoint literal (fields : list (string * JSValue)) : list (string * JSON) :=
  match fields with
  | [] => []
  | (k, Some v) :: r => (k, v) :: literal r
  | (_, None) :: r => literal r
  end.

(** [obj.k] on a parsed JSON value: own property of an object, else
    [undefined]. *)
Fixpoint lookup_member (k : string) (l : list (string * JSON)) : JSValue :=
  match l with
  | [] => None
  | (k', v) :: r => if String.eqb k k' then Some v else lookup_member k r
  end.

Definition property (v : JSON) (k : string) : JSValue :=
  match v with
  | JObj members => lookup_member k members
  | _ => None
  end.

End JSONText.

Import JSONText.

(** ** Headers, requests and responses *)

Module Headers.

(** A header list, in insertion order. *)
Definition t : Type := list (string * string).

(** Header names are compared case-insensitively. *)
Definition same_name (a b : string) : bool :=
  String.eqb (toLowerCase a) (toLowerCase b).

Fixpoint values (h : t) (name : string) : list string :=
  match h with
  | [] => []
  | (k, v) :: r => if same_name k name then v :: values r name else values r name
  end.

Fixpoint join (l : list string) : string :=
  match l with
  | [] => EmptyString
  | v :: r =>
      match r with
      | [] => v
      | _ :: _ => v +:+ ", " +:+ join r
      end
  end.

(** [headers.get(name)]: [null] when absent, else the values joined. *)
Definition get (h : t) (name : string) : option string :=
  match values h name with
  | [] => None
  | l => Some (join l)
  end.

(** [headers.set(name, value)]. *)
Definition set (h : t) (name value : string) : t :=
  List.app (List.filter (fun kv => negb (same_name (fst kv) name)) h) [(name, value)].

End Headers.

(** An uploaded [File]. *)
Record File : Type := {
  file_name : string;
  file_type : string;
  file_stream : list Byte.byte
}.

(** What [formData.get(name)] may return besides [null]. *)
Inductive FormDataEntryValue : Type :=
| FormString (s : string)
| FormFile (f : File).

(** A thrown JavaScript error. *)
Record JSError : Type := { message : string }.

(** The result of an awaited call: a value, or a thrown error. *)
Inductive Outcome (A : Type) : Type :=
| Return (a : A)
| Throw (e : JSError).

Arguments Return {A} a.
Arguments Throw {A} e.

Record Request : Type := {
  method : string;
  pathname : string;            (* new URL(request.url).pathname, percent-encoded *)
  headers : Headers.t;
  json : Outcome JSON;                                 (* await request.json() *)
  formData : Outcome (list (string * FormDataEntryValue))  (* await request.formData() *)
}.

Inductive Body : Type :=
| Text (s : string)
| Stream (bytes : list Byte.byte).

Record Response : Type := {
  status : Z;
  response_headers : Headers.t;
  body : Body
}.

(** [new Response(body, { status, headers })]; the status defaults to 200.
    For a string body the constructor adds the content type of plain text
    when the headers passed to it name none. *)
Definition new_Response (b : Body) (st : option Z) (h : Headers.t) : Response :=
  {| status := match st with Some n => n | None => 200 end;
     response_headers :=
       match b, Headers.get h "Content-Type" with
       | Text _, None => List.app h [("content-type", "text/plain;charset=UTF-8")]
       | _, _ => h
       end;
     body := b |}.

(** [formData.get(name)]: the first entry of that name. *)
Fixpoint formData_get (fields : list (string * FormDataEntryValue)) (name : string)
  : option FormDataEntryValue :=
  match fields with
  | [] => None
  | (k, v) :: r => if String.eqb k name then Some v else formData_get r name
  end.

(** ** The bindings of [env] *)

(** An object held by the R2 bucket. *)
Record R2Object : Type := {
  r2_body : list Byte.byte;
  r2_contentType : option string;      (* httpMetadata.contentType *)
  httpEtag : string
}.

Record Env (D : Type) : Type := {
  SERVER_USERNAME : option string;
  SERVER_PASSWORD : option string;
  STORAGE : gmap string string;        (* KV namespace *)
  FILES : gmap string R2Object;        (* R2 bucket *)
  DB : D                               (* D1 database *)
}.

Arguments SERVER_USERNAME {D} _.
Arguments SERVER_PASSWORD {D} _.
Arguments STORAGE {D} _.
Arguments FILES {D} _.
Arguments DB {D} _.

(** The errors the engine itself raises in the handler. *)
Inductive EngineError : Type :=
| NotDestructurable      (* const { .. } = null *)
| NotIterable            (* f(...x) for a non-iterable x *)
| NotCallable            (* x.stream() where x.stream is undefined *)
| InvalidCharacter.      (* btoa(s) for an s with a character above U+00FF *)

(** What the hosting runtime supplies and the source does not define:
    the SQL engine behind [env.DB], the entity tag R2 gives an object, what
    the KV binding does with an argument that is not a string, and the
    errors of the engine. *)
Class Runtime (D : Type) : Type := {
  DB_all : JSValue -> list JSON -> D -> Outcome JSON * D;
  DB_exec : string -> D -> Outcome unit * D;
  R2_etag : list Byte.byte -> string;
  KV_put_untyped :
    JSValue -> option string -> gmap string string -> Outcome unit * gmap string string;
  engine_error : EngineError -> JSError
}.

(** ** Handlers as state-and-exception computations over [env] *)

Definition Async (D A : Type) : Type := Env D -> Outcome A * Env D.

Definition ret {D A} (a : A) : Async D A := fun env => (Return a, env).

Definition throw {D A} (e : JSError) : Async D A := fun env => (Throw e, env).

Definition bind {D A B} (m : Async D A) (k : A -> Async D B) : Async D B :=
  fun env =>
    match m env with
    | (Return a, env') => k a env'
    | (Throw e, env') => (Throw e, env')
    end.

(** [await p] for a call whose result the request already determines. *)
Definition await {D A} (o : Outcome A) : Async D A := fun env => (o, env).

(** [try { m } catch (error) { h error }]. *)
Definition try_catch {D A} (m : Async D A) (h : JSError -> Async D A) : Async D A :=
  fun env =>
    match m env with
    | (Return a, env') => (Return a, env')
    | (Throw e, env') => h e env'
    end.

Declare Scope async_scope.
Delimit Scope async_scope with async.
Notation "'let*' x ':=' m 'in' k" := (bind m (fun x => k))
  (at level 10, x name, m at level 100, k at level 200) : async_scope.
Local Open Scope async_scope.

(** ** The collaborators and the authenticator *)

Section Worker.

Context {D : Type} `{Runtime D}.

Definition with_STORAGE (kv : gmap string string) (env : Env D) : Env D :=
  {| SERVER_USERNAME := SERVER_USERNAME env;
     SERVER_PASSWORD := SERVER_PASSWORD env;
     STORAGE := kv;
     FILES := FILES env;
     DB := DB env |}.

Definition with_FILES (bucket : gmap string R2Object) (env : Env D) : Env D :=
  {| SERVER_USERNAME := SERVER_USERNAME env;
     SERVER_PASSWORD := SERVER_PASSWORD env;
     STORAGE := STORAGE env;
     FILES := bucket;
     DB := DB env |}.

Definition with_DB (db : D) (env : Env D) : Env D :=
  {| SERVER_USERNAME := SERVER_USERNAME env;
     SERVER_PASSWORD := SERVER_PASSWORD env;
     STORAGE := STORAGE env;
     FILES := FILES env;
     DB := db |}.

(** [await env.STORAGE.get(key)]. *)
Definition STORAGE_get (key : string) : Async D (option string) :=
  fun env => (Return (STORAGE env !! key), env).

(** [await env.STORAGE.put(key, value)]. *)
Definition STORAGE_put (key : JSValue) (value : option string) : Async D unit :=
  fun env =>
    match key, value with
    | Some (JStr k), Some v => (Return tt, with_STORAGE (<[k := v]> (STORAGE env)) env)
    | _, _ =>
        let '(o, kv) := KV_put_untyped key value (STORAGE env) in
        (o, with_STORAGE kv env)
    end.

(** [await env.FILES.get(key)]. *)
Definition FILES_get (key : string) : Async D (option R2Object) :=
  fun env => (Return (FILES env !! key), env).

(** [await env.FILES.put(key, stream, { httpMetadata: { contentType } })]. *)
Definition FILES_put (key : string) (stream : list Byte.byte) (contentType : string)
  : Async D unit :=
  fun env =>
    let object := {| r2_body := stream;
                     r2_contentType := Some contentType;
                     httpEtag := R2_etag stream |} in
    (Return tt, with_FILES (<[key := object]> (FILES env)) env).

(** [object.writeHttpMetadata(headers)]. *)
Definition writeHttpMetadata (object : R2Object) (h : Headers.t) : Headers.t :=
  match r2_contentType object with
  | Some ct => Headers.set h "content-type" ct
  | None => h
  end.

(** [await env.DB.prepare(sql).bind(...args).all()]. *)
Definition DB_prepare_bind_all (sql : JSValue) (args : list JSON) : Async D JSON :=
  fun env =>
    let '(o, db) := DB_all sql args (DB env) in
    (o, with_DB db env).

(** [await env.DB.exec(sql)]. *)
Definition DB_run (sql : string) : Async D unit :=
  fun env =>
    let '(o, db) := DB_exec sql (DB env) in
    (o, with_DB db env).

(** [!s] for a string that may be [undefined] or [null]. *)
Definition falsy (s : option string) : bool :=
  match s with
  | None => true
  | Some EmptyString => true
  | Some (String _ _) => false
  end.

(** A string-or-undefined inside a template literal. *)
Definition interpolate (s : option string) : string :=
  match s with
  | Some x => x
  | None => "undefined"
  end.

Definition unauthorized_challenge : Response :=
  new_Response (Text "Unauthorized") (Some 401)
    [("WWW-Authenticate", "Basic realm=" +:+ String dquote ("Agent" +:+ String dquote EmptyString))].

Definition unauthorized_mismatch : Response :=
  new_Response (Text "Unauthorized") (Some 401) [].

(** [verifyBasicAuth]: [None] is the source's [null] (the request may pass). *)
Definition verifyBasicAuth (env : Env D) (request : Request) : option Response :=
  let username := SERVER_USERNAME env in
  let password := SERVER_PASSWORD env in
  if falsy password then None
  else
    let authorization := Headers.get (headers request) "Authorization" in
    match authorization with
    | None => Some unauthorized_challenge
    | Some a =>
        if negb (startsWith a "Basic ") then Some unauthorized_challenge
        else
          let expected := btoa (interpolate username +:+ ":" +:+ interpolate password) in
          let provided := slice 6 a in
          if negb (String.eqb provided expected) then Some unauthorized_mismatch
          else None
    end.

(** ** Pieces shared by the three dispatchers *)

Definition json_headers : Headers.t := [("Content-Type", "application/json")].

(** [new Response(JSON.stringify(v), { status, headers: json })]. *)
Definition json_response (v : JSON) (st : option Z) : Response :=
  new_Response (Text (stringify v)) st json_headers.

(** [const { .. } = v]: only [null] cannot be destructured. *)
Definition destructure (v : JSON) : Async D JSON :=
  match v with
  | JNull => throw (engine_error NotDestructurable)
  | _ => ret v
  end.

(** [...v] in an argument list. *)
Definition spread (v : JSON) : Outcome (list JSON) :=
  match v with
  | JArr items => Return items
  | JStr s => Return (map (fun c => JStr (String c EmptyString)) (list_ascii_of_string s))
  | _ => Throw (engine_error NotIterable)
  end.

(** The statement of [POST /api/db/init], as the template literal holds it. *)
Definition init_schema : string :=
  "
      CREATE TABLE IF NOT EXISTS logs (
        id INTEGER PRIMARY KEY AUTOINCREMENT,
        level TEXT NOT NULL,
        message TEXT NOT NULL,
        created_at DATETIME DEFAULT CURRENT_TIMESTAMP
      );
      
      CREATE TABLE IF NOT EXISTS users (
        id INTEGER PRIMARY KEY AUTOINCREMENT,
        username TEXT UNIQUE NOT NULL,
        created_at DATETIME DEFAULT CURRENT_TIMESTAMP
      );
    ".

(** The [POST /api/kv] branch. *)
Definition kv_store (request : Request) : Async D Response :=
  let* parsed := await (json request) in
  let* o := destructure parsed in
  let key := property o "key" in
  let value := property o "value" in
  let* _ := STORAGE_put key (JSON_stringify value) in
  ret (json_response (JObj (literal [("success", Some (JBool true)); ("key", key)])) None).

(** The [GET <prefix><key>] branch over the KV namespace. *)
Definition kv_retrieve (prefix : string) (request : Request) : Async D Response :=
  let key := replace prefix EmptyString (pathname request) in
  let* value := STORAGE_get key in
  match value with
  | None => ret (new_Response (Text "Not found") (Some 404) [])
  | Some v =>
      if falsy (Some v) then ret (new_Response (Text "Not found") (Some 404) [])
      else ret (new_Response (Text v) None json_headers)
  end.

(** The [POST /api/db/query] branch. *)
Definition db_query (request : Request) : Async D Response :=
  let* parsed := await (json request) in
  let* o := destructure parsed in
  let sql := property o "sql" in
  let params := match property o "params" with Some p => p | None => JArr [] end in
  try_catch
    (let* args := await (spread params) in
     let* result := DB_prepare_bind_all sql args in
     ret (json_response
            (JObj (literal [("success", Some (JBool true)); ("result", Some result)])) None))
    (fun error =>
       ret (json_response
              (JObj (literal [("success", Some (JBool false));
                              ("error", Some (JStr (message error)))])) (Some 400))).

(** The [POST /api/db/init] branch. *)
Definition db_init : Async D Response :=
  let* _ := DB_run init_schema in
  ret (json_response
         (JObj [("success", JBool true); ("message", JStr "Database initialized")]) None).

Definition endpoint (m p d : string) : JSON :=
  JObj [("method", JStr m); ("path", JStr p); ("desc", JStr d)].

End Worker.

(** ** The full dispatcher: KV, R2 and D1 *)

Module Full.

Section Dispatcher.

Context {D : Type} `{Runtime D}.

Definition status_response : Response :=
  json_response
    (JObj [("status", JStr "running");
           ("version", JStr "free-tier");
           ("services", JArr [JStr "KV"; JStr "R2"; JStr "D1"]);
           ("message", JStr "Cloud Code Bot Free Edition - Full Features")]) None.

Definition documentation : Response :=
  json_response
    (JObj [("message", JStr "Cloud Code Bot Free Edition");
           ("version", JStr "2.0.0");
           ("services",
            JObj [("kv", JStr "Key-Value storage for config and cache");
                  ("r2", JStr "Object storage for files and images");
                  ("d1", JStr "SQL database for structured data")]);
           ("endpoints",
            JArr [endpoint "GET" "/api/status" "Service status";
                  endpoint "POST" "/api/kv" "Store data in KV";
                  endpoint "GET" "/api/kv/:key" "Retrieve from KV";
                  endpoint "POST" "/api/files" "Upload file to R2";
                  endpoint "GET" "/api/files/:key" "Download file from R2";
                  endpoint "POST" "/api/db/init" "Initialize database tables";
                  endpoint "POST" "/api/db/query" "Execute SQL query"])]) None.

(** The [POST /api/files] branch; [now] is the value of [Date.now()]. *)
Definition files_upload (now : Z) (request : Request) : Async D Response :=
  let* form := await (formData request) in
  let file := formData_get form "file" in
  match file with
  | None => ret (new_Response (Text "No file provided") (Some 400) [])
  | Some (FormString EmptyString) => ret (new_Response (Text "No file provided") (Some 400) [])
  | Some (FormString (String _ _)) => throw (engine_error NotCallable)
  | Some (FormFile f) =>
      let key := "uploads/" +:+ Number_toString now +:+ "-" +:+ file_name f in
      let* _ := FILES_put key (file_stream f) (file_type f) in
      ret (json_response
             (JObj [("success", JBool true);
                    ("key", JStr key);
                    ("url", JStr ("/api/files/" +:+ key))]) None)
  end.

(** The [GET /api/files/<key>] branch. *)
Definition files_download (request : Request) : Async D Response :=
  let key := replace "/api/files/" EmptyString (pathname request) in
  let* object := FILES_get key in
  match object with
  | None => ret (new_Response (Text "File not found") (Some 404) [])
  | Some o =>
      let h := writeHttpMetadata o [] in
      let h := Headers.set h "etag" (httpEtag o) in
      ret (new_Response (Stream (r2_body o)) None h)
  end.

(** The body of [handleFetch] after the authentication check. *)
Definition routes (now : Z) (request : Request) : Async D Response :=
  let p := pathname request in
  let m := method request in
  if String.eqb p "/api/status" then ret status_response
  else if String.eqb p "/api/kv" && String.eqb m "POST" then kv_store request
  else if startsWith p "/api/kv/" && String.eqb m "GET" then kv_retrieve "/api/kv/" request
  else if String.eqb p "/api/files" && String.eqb m "POST" then files_upload now request
  else if startsWith p "/api/files/" && String.eqb m "GET" then files_download request
  else if String.eqb p "/api/db/query" && String.eqb m "POST" then db_query request
  else if String.eqb p "/api/db/init" && String.eqb m "POST" then db_init
  else ret documentation.

Definition handleFetch (now : Z) (request : Request) : Async D Response :=
  fun env =>
    match verifyBasicAuth env request with
    | Some authError => (Return authError, env)
    | None => routes now request env
    end.

End Dispatcher.

(** *** The limits table and [checkLimits] (defined, never called) *)

Record KVLimits : Type := {
  kv_maxStorageBytes : Z;
  maxKeySize : Z;
  maxValueSize : Z
}.

Record R2Limits : Type := {
  r2_maxStorageBytes : Z;
  maxFileSize : Z;
  maxFilesPerDay : Z
}.

Record D1Limits : Type := {
  d1_maxStorageBytes : Z;
  maxQueryLength : Z;
  maxRowsPerQuery : Z
}.

Record RequestLimits : Type := { maxPerDay : Z }.

Record Limits : Type := {
  kv : KVLimits;
  r2 : R2Limits;
  d1 : D1Limits;
  requests : RequestLimits
}.

Definition FREE_TIER_LIMITS : Limits :=
  {| kv := {| kv_maxStorageBytes := 1024 * 1024 * 1024;
              maxKeySize := 512 * 1024;
              maxValueSize := 25 * 1024 * 1024 |};
     r2 := {| r2_maxStorageBytes := 10 * 1024 * 1024 * 1024;
              maxFileSize := 300 * 1024 * 1024;
              maxFilesPerDay := 1000 |};
     d1 := {| d1_maxStorageBytes := 500 * 1024 * 1024;
              maxQueryLength := 100000;
              maxRowsPerQuery := 50000 |};
     requests := {| maxPerDay := 100000 |} |}.

Inductive LimitType : Type := type_kv | type_r2 | type_d1.

Definition is_kv (t : LimitType) : bool :=
  match t with type_kv => true | _ => false end.

Definition is_r2 (t : LimitType) : bool :=
  match t with type_r2 => true | _ => false end.

Definition checkLimits (type : LimitType) (size : Z) : option Response :=
  if is_kv type && (size >? maxValueSize (kv FREE_TIER_LIMITS)) then
    Some (new_Response
            (Text (stringify (JObj [("error", JStr "KV value too large");
                                    ("limit", JNum (maxValueSize (kv FREE_TIER_LIMITS)));
                                    ("received", JNum size)])))
            (Some 413) [])
  else if is_r2 type && (size >? maxFileSize (r2 FREE_TIER_LIMITS)) then
    Some (new_Response
            (Text (stringify (JObj [("error", JStr "File too large");
                                    ("limit", JNum (maxFileSize (r2 FREE_TIER_LIMITS)));
                                    ("received", JNum size)])))
            (Some 413) [])
  else None.

End Full.

(** ** The two-service dispatcher of [src/index.ts]: KV and D1 *)

Module KvD1.

Section Dispatcher.

Context {D : Type} `{Runtime D}.

Definition status_response : Response :=
  json_response
    (JObj [("status", JStr "running");
           ("version", JStr "free-tier");
           ("services", JArr [JStr "KV"; JStr "D1"]);
           ("message", JStr "Cloud Code Bot Free Edition - KV & D1")]) None.

Definition documentation : Response :=
  json_response
    (JObj [("message", JStr "Cloud Code Bot Free Edition");
           ("version", JStr "2.0.0");
           ("services",
            JObj [("kv", JStr "Key-Value storage for config and cache");
                  ("d1", JStr "SQL database for structured data")]);
           ("endpoints",
            JArr [endpoint "GET" "/api/status" "Service status";
                  endpoint "POST" "/api/kv" "Store data in KV";
                  endpoint "GET" "/api/kv/:key" "Retrieve from KV";
                  endpoint "POST" "/api/db/init" "Initialize database tables";
                  endpoint "POST" "/api/db/query" "Execute SQL query"])]) None.

Definition routes (request : Request) : Async D Response :=
  let p := pathname request in
  let m := method request in
  if String.eqb p "/api/status" then ret status_response
  else if String.eqb p "/api/kv" && String.eqb m "POST" then kv_store request
  else if startsWith p "/api/kv/" && String.eqb m "GET" then kv_retrieve "/api/kv/" request
  else if String.eqb p "/api/db/query" && String.eqb m "POST" then db_query request
  else if String.eqb p "/api/db/init" && String.eqb m "POST" then db_init
  else ret documentation.

Definition handleFetch (request : Request) : Async D Response :=
  fun env =>
    match verifyBasicAuth env request with
    | Some authError => (Return authError, env)
    | None => routes request env
    end.

End Dispatcher.

End KvD1.

(** ** The KV-only dispatcher *)

Module KvOnly.

Section Dispatcher.

Context {D : Type} `{Runtime D}.

Definition status_response : Response :=
  json_response
    (JObj [("status", JStr "running");
           ("version", JStr "free-tier");
           ("message",
            JStr "Cloud Code Bot Free Edition - Running on Cloudflare Workers + KV")]) None.

Definition documentation : Response :=
  json_response
    (JObj [("message", JStr "Cloud Code Bot Free Edition");
           ("endpoints",
            JArr [JStr "GET /api/status - Check service status";
                  JStr "POST /api/store - Store data in KV";
                  JStr "GET /api/store/:key - Retrieve data from KV"])]) None.

(** The [POST /api/store] branch; [now] is the value of [Date.now()]. *)
Definition store (now : Z) (request : Request) : Async D Response :=
  let* data := await (json request) in
  let key := "data:" +:+ Number_toString now in
  let* _ := STORAGE_put (Some (JStr key)) (JSON_stringify (Some data)) in
  ret (json_response (JObj [("success", JBool true); ("key", JStr key)]) None).

Definition routes (now : Z) (request : Request) : Async D Response :=
  let p := pathname request in
  let m := method request in
  if String.eqb p "/api/status" then ret status_response
  else if String.eqb p "/api/store" && String.eqb m "POST" then store now request
  else if startsWith p "/api/store/" && String.eqb m "GET" then kv_retrieve "/api/store/" request
  else ret documentation.

Definition handleFetch (now : Z) (request : Request) : Async D Response :=
  fun env =>
    match verifyBasicAuth env request with
    | Some authError => (Return authError, env)
    | None => routes now request env
    end.

End Dispatcher.

End KvOnly.

(** ** An in-memory runtime, to run the dispatchers on concrete requests *)

Module InMemory.

(** The database is the list of schema scripts run so far; a statement
    succeeds when it starts with [SELECT] and faults otherwise. *)
#[global] Instance runtime : Runtime (list string) := {|
  DB_all := fun sql args db =>
    match sql with
    | Some (JStr s) =>
        if startsWith s "SELECT"
        then (Return (JObj [("results", JArr args); ("success", JBool true)]), db)
        else (Throw {| message := "D1_ERROR: syntax error" |}, db)
    | _ => (Throw {| message := "D1_TYPE_ERROR" |}, db)
    end;
  DB_exec := fun sql db => (Return tt, sql :: db);
  R2_etag := fun bytes =>
    String dquote (Number_toString (Z.of_nat (List.length bytes)) +:+ String dquote EmptyString);
  KV_put_untyped := fun _ _ kv => (Throw {| message := "KV put: invalid argument" |}, kv);
  engine_error := fun e =>
    match e with
    | NotDestructurable => {| message := "Cannot destructure" |}
    | NotIterable => {| message := "not iterable" |}
    | NotCallable => {| message := "not a function" |}
    | InvalidCharacter => {| message := "invalid character" |}
    end
|}.

(** No password configured, nothing stored. *)
Definition open_env : Env (list string) :=
  {| SERVER_USERNAME := None;
     SERVER_PASSWORD := None;
     STORAGE := ∅;
     FILES := ∅;
     DB := [] |}.

(** The credential pair [admin] / [secret], nothing stored. *)
Definition locked_env : Env (list string) :=
  {| SERVER_USERNAME := Some "admin";
     SERVER_PASSWORD := Some "secret";
     STORAGE := ∅;
     FILES := ∅;
     DB := [] |}.

Definition no_body {A : Type} : Outcome A :=
  Throw {| message := "no body" |}.

(** A request without a body. *)
Definition bare (m p : string) (h : Headers.t) : Request :=
  {| method := m; pathname := p; headers := h; json := no_body; formData := no_body |}.

(** A request with a JSON body. *)
Definition with_json (m p : string) (h : Headers.t) (v : JSON) : Request :=
  {| method := m; pathname := p; headers := h; json := Return v; formData := no_body |}.

(** A request with a multipart form. *)
Definition with_form (m p : string) (h : Headers.t)
  (fields : list (string * FormDataEntryValue)) : Request :=
  {| method := m; pathname := p; headers := h; json := no_body; formData := Return fields |}.

Definition hello_txt : File :=
  {| file_name := "hello.txt";
     file_type := "text/plain";
     file_stream := [Byte.x68; Byte.x69] |}.

End InMemory.

(** ** Notions used to state the properties *)

(** The size of a value once serialized, in characters. *)
Definition serialized_size (v : JSON) : Z :=
  Z.of_nat (String.length (stringify v)).

(** The body of a response is a JSON text: what [JSON.stringify] yields
    for some value. *)
Definition JSON_body (r : Response) : Prop :=
  exists v, body r = Text (stringify v).

(** A failure answered in plain text: a status and a fixed message. *)
Definition plain_failure (r : Response) (st : Z) (text : string) : Prop :=
  status r = st /\ body r = Text text.

(** The failure answered in JSON: the reshaped fault of a query. *)
Definition query_failure (r : Response) : Prop :=
  status r = 400
  /\ Headers.get (response_headers r) "Content-Type" = Some "application/json"
  /\ exists msg,
       body r = Text (stringify (JObj [("success", JBool false); ("error", JStr msg)])).

(** [s] repeated [2^n] times. *)
Fixpoint doubled (n : nat) (s : string) : string :=
  match n with
  | O => s
  | S n' => doubled n' (s +:+ s)
  end.

(** A string of 32 MiB, above the 25 MiB of [maxValueSize]. *)
Definition oversized_value : JSON := JStr (doubled 25 "a").

Definition oversized_post : Request :=
  InMemory.with_json "POST" "/api/kv" []
    (JObj [("key", JStr "big"); ("value", oversized_value)]).

(** ** The pathname of a request URL *)

(** [new URL(request.url).pathname] for a URL of scheme [http] or [https]
    whose text after the host is [target], following the path states of
    the URL Standard on code points up to U+00FF. *)
Module URL.

(** The path percent-encode set. *)
Definition in_path_percent_encode_set (c : ascii) : bool :=
  let n := N_of_ascii c in
  ((n <=? 31) || (126 <? n)
   || (n =? 32) || (n =? 34) || (n =? 35) || (n =? 60) || (n =? 62)
   || (n =? 63) || (n =? 94) || (n =? 96) || (n =? 123) || (n =? 125))%N.

Definition upper_hex_digit (n : N) : ascii :=
  match String.get (N.to_nat n) "0123456789ABCDEF" with
  | Some c => c
  | None => "0"%char
  end.

Definition percent_byte (b : N) : string :=
  String "%" (String (upper_hex_digit (N.shiftr b 4))
                (String (upper_hex_digit (N.land b 15)) EmptyString)).

(** The percent-encoded UTF-8 bytes of a code point up to U+00FF. *)
Definition percent_encode (c : ascii) : string :=
  let n := N_of_ascii c in
  if (n <? 128)%N then percent_byte n
  else percent_byte (N.lor 192 (N.shiftr n 6)) +:+ percent_byte (N.lor 128 (N.land n 63)).

Definition encode_code_point (c : ascii) : string :=
  if in_path_percent_encode_set c then percent_encode c else String c EmptyString.

Definition is_slash (c : ascii) : bool :=
  Ascii.eqb c "/" || Ascii.eqb c "\".

Definition ends_path (c : ascii) : bool :=
  Ascii.eqb c "?" || Ascii.eqb c "#".

Definition is_single_dot (segment : string) : bool :=
  let l := toLowerCase segment in
  String.eqb l "." || String.eqb l "%2e".

Definition is_double_dot (segment : string) : bool :=
  let l := toLowerCase segment in
  String.eqb l ".." || String.eqb l ".%2e" || String.eqb l "%2e." || String.eqb l "%2e%2e".

(** The end of a segment; [path] is the list of segments so far, the last
    one first, and [last] tells that no slash follows. *)
Definition push_segment (buffer : string) (last : bool) (path : list string) : list string :=
  if is_double_dot buffer then
    if last then EmptyString :: List.tl path else List.tl path
  else if is_single_dot buffer then
    if last then EmptyString :: path else path
  else buffer :: path.

(** The path state. *)
Fixpoint path_state (input buffer : string) (path : list string) : list string :=
  match input with
  | EmptyString => push_segment buffer true path
  | String c rest =>
      if ends_path c then push_segment buffer true path
      else if is_slash c then path_state rest EmptyString (push_segment buffer false path)
      else path_state rest (buffer +:+ encode_code_point c) path
  end.

Fixpoint serialize (segments : list string) : string :=
  match segments with
  | [] => EmptyString
  | segment :: rest => "/" +:+ segment +:+ serialize rest
  end.

(** Trailing C0 controls and spaces are dropped from the URL text. *)
Fixpoint strip_trailing (s : string) : string :=
  match s with
  | EmptyString => EmptyString
  | String c rest =>
      match strip_trailing rest with
      | EmptyString => if (N_of_ascii c <=? 32)%N then EmptyString else String c EmptyString
      | kept => String c kept
      end
  end.

(** Tabs and newlines are dropped wherever they stand. *)
Fixpoint remove_tab_or_newline (s : string) : string :=
  match s with
  | EmptyString => EmptyString
  | String c rest =>
      let n := N_of_ascii c in
      if ((n =? 9) || (n =? 10) || (n =? 13))%N then remove_tab_or_newline rest
      else String c (remove_tab_or_newline rest)
  end.

Definition pathname (target : string) : string :=
  let input := remove_tab_or_newline (strip_trailing target) in
  let after_slash :=
    match input with
    | String c rest => if is_slash c then rest else input
    | EmptyString => EmptyString
    end in
  serialize (List.rev (path_state after_slash EmptyString [])).

(** No character of [s] is in the path percent-encode set. *)
Fixpoint plain (s : string) : bool :=
  match s with
  | EmptyString => true
  | String c rest => negb (in_path_percent_encode_set c) && plain rest
  end.

End URL.

(** ** Credentials beyond Latin-1 *)

(** The environment variables are JavaScript strings, sequences of UTF-16
    code units; the [string] fields of [Env] hold those whose code units
    are all at most 255.  Here [verifyBasicAuth] and the start of
    [handleFetch] are written over code units, with the [btoa] that throws
    on a code unit above 255. *)
Module JS16.

(** The code units of a Latin-1 string. *)
Definition latin1 (s : string) : list N :=
  map N_of_ascii (list_ascii_of_string s).

Section WithRuntime.

Context {D : Type} `{Runtime D}.

Definition btoa (data : list N) : Outcome string :=
  if forallb (fun c => (c <=? 255)%N) data
  then Return (Base64.encode data)
  else Throw (engine_error InvalidCharacter).

(** [!s]. *)
Definition falsy (s : option (list N)) : bool :=
  match s with
  | None => true
  | Some [] => true
  | Some (_ :: _) => false
  end.

(** A string-or-undefined inside a template literal. *)
Definition interpolate (s : option (list N)) : list N :=
  match s with
  | Some x => x
  | None => latin1 "undefined"
  end.

(** [verifyBasicAuth] with [env.SERVER_USERNAME] and [env.SERVER_PASSWORD]
    given as code units.  The header value is a byte string. *)
Definition verifyBasicAuth (username password : option (list N)) (request : Request)
  : Outcome (option Response) :=
  if falsy password then Return None
  else
    let authorization := Headers.get (headers request) "Authorization" in
    match authorization with
    | None => Return (Some unauthorized_challenge)
    | Some a =>
        if negb (startsWith a "Basic ") then Return (Some unauthorized_challenge)
        else
          match btoa (List.app (interpolate username)
                        (List.app (latin1 ":") (interpolate password))) with
          | Throw e => Throw e
          | Return expected =>
              let provided := slice 6 a in
              if negb (String.eqb provided expected) then Return (Some unauthorized_mismatch)
              else Return None
          end
    end.

(** The start of each [handleFetch]; [routes] is the rest of its body. *)
Definition handleFetch (username password : option (list N))
  (routes : Request -> Async D Response) (request : Request) : Async D Response :=
  fun env =>
    match verifyBasicAuth username password request with
    | Throw e => (Throw e, env)
    | Return (Some authError) => (Return authError, env)
    | Return None => routes request env
    end.

End WithRuntime.

End JS16.

(** ** Facts about the string operations *)

Lemma prefix_append (p s : string) : String.prefix p (p +:+ s) = true.
Proof.
  induction p as [|c p IH]; simpl.
  - destruct s; reflexivity.
  - destruct (ascii_dec c c) as [_|ne]; [exact IH | contradiction].
Qed.

Lemma slice_length_append (p s : string) : slice (String.length p) (p +:+ s) = s.
Proof. induction p as [|c p IH]; simpl; [reflexivity | exact IH]. Qed.

Lemma replace_unfold (pat rep s : string) :
  replace pat rep s =
  if String.prefix pat s then rep +:+ slice (String.length pat) s
  else match s with
       | EmptyString => EmptyString
       | String c s' => String c (replace pat rep s')
       end.
Proof. destruct s; reflexivity. Qed.

(** Removing a prefix that was just put in front gives back the tail. *)
Lemma replace_prefix (p k : string) : replace p EmptyString (p +:+ k) = k.
Proof.
  rewrite replace_unfold, prefix_append. simpl. apply slice_length_append.
Qed.

Lemma String_eqb_true (a b : string) : String.eqb a b = true -> a = b.
Proof. apply String.eqb_eq. Qed.

Lemma String_eqb_false (a b : string) : String.eqb a b = false -> a <> b.
Proof. apply String.eqb_neq. Qed.

(** ** The authenticator *)

Section Authenticator.

Context {D : Type} `{Runtime D}.

(** The authenticator reads only the credential pair of [env]. *)
Lemma verifyBasicAuth_credentials (env env' : Env D) (request : Request) :
  SERVER_USERNAME env' = SERVER_USERNAME env ->
  SERVER_PASSWORD env' = SERVER_PASSWORD env ->
  verifyBasicAuth env' request = verifyBasicAuth env request.
Proof. intros Hu Hp. unfold verifyBasicAuth. rewrite Hu, Hp. reflexivity. Qed.

(** Every rejection is one of the two 401 responses. *)
Lemma verifyBasicAuth_rejections (env : Env D) (request : Request) (r : Response) :
  verifyBasicAuth env request = Some r ->
  r = unauthorized_challenge \/ r = unauthorized_mismatch.
Proof.
  unfold verifyBasicAuth.
  destruct (falsy (SERVER_PASSWORD env)); [discriminate|].
  destruct (Headers.get (headers request) "Authorization") as [a|].
  - destruct (negb (startsWith a "Basic ")); [intros [= <-]; now left|].
    destruct (negb (String.eqb _ _)); [intros [= <-]; now right | discriminate].
  - intros [= <-]; now left.
Qed.

(** C3.  When no password is configured (the variable is unset or empty),
    [verifyBasicAuth] lets every request pass, whatever its headers, and
    each dispatcher goes on to its routes. *)
Theorem no_password_allows_every_request (env : Env D) (now : Z) (request : Request) :
  SERVER_PASSWORD env = None \/ SERVER_PASSWORD env = Some EmptyString ->
  verifyBasicAuth env request = None
  /\ Full.handleFetch now request env = Full.routes now request env
  /\ KvD1.handleFetch request env = KvD1.routes request env
  /\ KvOnly.handleFetch now request env = KvOnly.routes now request env.
Proof.
  intros Hpw.
  assert (Hnone : verifyBasicAuth env request = None).
  { unfold verifyBasicAuth. destruct Hpw as [-> | ->]; reflexivity. }
  unfold Full.handleFetch, KvD1.handleFetch, KvOnly.handleFetch.
  rewrite Hnone. auto.
Qed.

(** C4.  With a non-empty password configured, a request without an
    [Authorization] header, or with one that does not start with [Basic ],
    is answered 401 with the header [WWW-Authenticate: Basic realm="Agent"],
    by each dispatcher and without touching [env]. *)
Theorem missing_or_non_basic_header_is_challenged
  (env : Env D) (now : Z) (request : Request) (p : string) :
  SERVER_PASSWORD env = Some p ->
  p <> EmptyString ->
  (forall a, Headers.get (headers request) "Authorization" = Some a ->
             startsWith a "Basic " = false) ->
  exists r,
    verifyBasicAuth env request = Some r
    /\ status r = 401
    /\ Headers.get (response_headers r) "WWW-Authenticate"
       = Some ("Basic realm=" +:+ String dquote ("Agent" +:+ String dquote EmptyString))
    /\ Full.handleFetch now request env = (Return r, env)
    /\ KvD1.handleFetch request env = (Return r, env)
    /\ KvOnly.handleFetch now request env = (Return r, env).
Proof.
  intros Hpw Hne Hhdr.
  assert (Hrej : verifyBasicAuth env request = Some unauthorized_challenge).
  { unfold verifyBasicAuth. rewrite Hpw.
    destruct p as [|c p']; [contradiction|]. simpl.
    destruct (Headers.get (headers request) "Authorization") as [a|]; [|reflexivity].
    rewrite (Hhdr a eq_refl). reflexivity. }
  exists unauthorized_challenge.
  unfold Full.handleFetch, KvD1.handleFetch, KvOnly.handleFetch.
  rewrite Hrej. repeat split; reflexivity.
Qed.

(** C6.  A request rejected by authentication gets the rejection response
    at once: each dispatcher returns it with [env] (key-value store, object
    store and database) exactly as it was. *)
Theorem rejected_request_touches_nothing
  (env : Env D) (now : Z) (request : Request) (r : Response) :
  verifyBasicAuth env request = Some r ->
  Full.handleFetch now request env = (Return r, env)
  /\ KvD1.handleFetch request env = (Return r, env)
  /\ KvOnly.handleFetch now request env = (Return r, env).
Proof.
  intros Hrej.
  unfold Full.handleFetch, KvD1.handleFetch, KvOnly.handleFetch.
  rewrite Hrej. auto.
Qed.

(** Credentials within Latin-1.  With a credential pair [(u, p)] of
    8-bit strings, [p] non-empty, and an
    [Authorization] header that starts with [Basic ], the request passes
    exactly when the rest of the header equals [btoa (u + ":" + p)]; when it
    passes, each dispatcher goes on to its routes, and when it does not, each
    answers 401 without a [WWW-Authenticate] header and leaves [env] alone. *)
Theorem basic_credentials_decide_access
  (env : Env D) (now : Z) (request : Request) (u p a : string) :
  SERVER_USERNAME env = Some u ->
  SERVER_PASSWORD env = Some p ->
  p <> EmptyString ->
  Headers.get (headers request) "Authorization" = Some a ->
  startsWith a "Basic " = true ->
  (verifyBasicAuth env request = None <-> slice 6 a = btoa (u +:+ ":" +:+ p))
  /\ (slice 6 a = btoa (u +:+ ":" +:+ p) ->
      Full.handleFetch now request env = Full.routes now request env
      /\ KvD1.handleFetch request env = KvD1.routes request env
      /\ KvOnly.handleFetch now request env = KvOnly.routes now request env)
  /\ (slice 6 a <> btoa (u +:+ ":" +:+ p) ->
      exists r,
        verifyBasicAuth env request = Some r
        /\ status r = 401
        /\ Headers.get (response_headers r) "WWW-Authenticate" = None
        /\ Full.handleFetch now request env = (Return r, env)
        /\ KvD1.handleFetch request env = (Return r, env)
        /\ KvOnly.handleFetch now request env = (Return r, env)).
Proof.
  intros Hu Hpw Hne Hhdr Hbasic.
  assert (Hv : verifyBasicAuth env request =
               if String.eqb (slice 6 a) (btoa (u +:+ ":" +:+ p))
               then None else Some unauthorized_mismatch).
  { unfold verifyBasicAuth. rewrite Hu, Hpw, Hhdr, Hbasic.
    destruct p as [|c p']; [contradiction|]. simpl.
    destruct (String.eqb _ _); reflexivity. }
  unfold Full.handleFetch, KvD1.handleFetch, KvOnly.handleFetch.
  rewrite Hv.
  destruct (String.eqb (slice 6 a) (btoa (u +:+ ":" +:+ p))) eqn:E.
  - apply String_eqb_true in E.
    split; [tauto|]. split; [auto | intros Hx; contradiction].
  - apply String_eqb_false in E.
    split; [split; [discriminate | intros Hx; contradiction]|].
    split; [intros Hx; contradiction|].
    intros _. exists unauthorized_mismatch. repeat split; reflexivity.
Qed.

End Authenticator.

(** ** Facts about [JSON.stringify] *)

Lemma Number_toString_nonempty (z : Z) : exists c s, Number_toString z = String c s.
Proof.
  unfold Number_toString.
  destruct z as [|q|q]; simpl.
  - eexists _, _; reflexivity.
  - destruct (Pos.to_uint q); simpl; eexists _, _; reflexivity.
  - eexists _, _; reflexivity.
Qed.

(** The text of a defined value is never the empty string. *)
Lemma stringify_nonempty (v : JSON) : exists c s, stringify v = String c s.
Proof.
  destruct v as [|[|]|z|s|items|members]; simpl;
    try (eexists _, _; reflexivity).
  apply Number_toString_nonempty.
Qed.

Lemma stringify_truthy (v : JSON) : falsy (Some (stringify v)) = false.
Proof. destruct (stringify_nonempty v) as (c & s & ->). reflexivity. Qed.

(** ** The branches of the dispatchers *)

Ltac run_async :=
  unfold bind, await, ret, throw, try_catch, destructure,
         STORAGE_get, STORAGE_put, FILES_get, FILES_put,
         DB_prepare_bind_all, DB_run; simpl.

Section Branches.

Context {D : Type} `{Runtime D}.

(** A path with a given prefix is that prefix followed by its tail. *)
Lemma startsWith_split (p q : string) :
  startsWith p q = true -> p = q +:+ slice (String.length q) p.
Proof.
  unfold startsWith. revert p.
  induction q as [|c q IH]; intros p Hp; simpl.
  - reflexivity.
  - destruct p as [|b p]; simpl in Hp; [discriminate|].
    destruct (ascii_dec c b) as [->|]; [|discriminate].
    change (String b p = String b (q +:+ slice (String.length q) p)).
    f_equal. apply IH, Hp.
Qed.

(** The retrieval branch reads the store and returns; [env] is untouched. *)
Lemma kv_retrieve_reads (prefix : string) (request : Request) (env : Env D) :
  kv_retrieve prefix request env =
  (Return
     match STORAGE env !! replace prefix EmptyString (pathname request) with
     | Some (String c v) => new_Response (Text (String c v)) None json_headers
     | _ => new_Response (Text "Not found") (Some 404) []
     end, env).
Proof.
  unfold kv_retrieve. run_async.
  destruct (STORAGE env !! _) as [[|c v]|]; reflexivity.
Qed.

Lemma files_download_reads (request : Request) (env : Env D) :
  Full.files_download request env =
  (Return
     match FILES env !! replace "/api/files/" EmptyString (pathname request) with
     | Some o =>
         new_Response (Stream (r2_body o)) None
           (Headers.set (writeHttpMetadata o []) "etag" (httpEtag o))
     | None => new_Response (Text "File not found") (Some 404) []
     end, env).
Proof.
  unfold Full.files_download. run_async.
  destruct (FILES env !! _); reflexivity.
Qed.

(** The store branch on a body [{ key: K, value: V }]. *)
Lemma kv_store_writes (request : Request) (env : Env D)
  (members : list (string * JSON)) (K : string) (V : JSON) :
  json request = Return (JObj members) ->
  lookup_member "key" members = Some (JStr K) ->
  lookup_member "value" members = Some V ->
  kv_store request env =
  (Return (json_response (JObj [("success", JBool true); ("key", JStr K)]) None),
   with_STORAGE (<[K := stringify V]> (STORAGE env)) env).
Proof.
  intros Hjson Hkey Hval. unfold kv_store. run_async.
  rewrite Hjson. simpl. rewrite Hkey, Hval. reflexivity.
Qed.

(** Which branch a path selects. *)
Lemma Full_routes_kv_post (now : Z) (request : Request) :
  method request = "POST" -> pathname request = "/api/kv" ->
  Full.routes now request = kv_store request.
Proof. intros Hm Hp. unfold Full.routes. rewrite Hm, Hp. reflexivity. Qed.

Lemma KvD1_routes_kv_post (request : Request) :
  method request = "POST" -> pathname request = "/api/kv" ->
  KvD1.routes request = kv_store request.
Proof. intros Hm Hp. unfold KvD1.routes. rewrite Hm, Hp. reflexivity. Qed.

Lemma Full_routes_kv_get (now : Z) (request : Request) :
  method request = "GET" -> startsWith (pathname request) "/api/kv/" = true ->
  Full.routes now request = kv_retrieve "/api/kv/" request.
Proof.
  intros Hm Hp. unfold Full.routes. rewrite Hm, Hp.
  rewrite (startsWith_split _ _ Hp). reflexivity.
Qed.

Lemma KvD1_routes_kv_get (request : Request) :
  method request = "GET" -> startsWith (pathname request) "/api/kv/" = true ->
  KvD1.routes request = kv_retrieve "/api/kv/" request.
Proof.
  intros Hm Hp. unfold KvD1.routes. rewrite Hm, Hp.
  rewrite (startsWith_split _ _ Hp). reflexivity.
Qed.

Lemma Full_routes_files_get (now : Z) (request : Request) :
  method request = "GET" -> startsWith (pathname request) "/api/files/" = true ->
  Full.routes now request = Full.files_download request.
Proof.
  intros Hm Hp. unfold Full.routes. rewrite Hm, Hp.
  rewrite (startsWith_split _ _ Hp). reflexivity.
Qed.

Lemma Full_routes_files_post (now : Z) (request : Request) :
  method request = "POST" -> pathname request = "/api/files" ->
  Full.routes now request = Full.files_upload now request.
Proof. intros Hm Hp. unfold Full.routes. rewrite Hm, Hp. reflexivity. Qed.

Lemma Full_routes_query (now : Z) (request : Request) :
  method request = "POST" -> pathname request = "/api/db/query" ->
  Full.routes now request = db_query request.
Proof. intros Hm Hp. unfold Full.routes. rewrite Hm, Hp. reflexivity. Qed.

Lemma KvD1_routes_query (request : Request) :
  method request = "POST" -> pathname request = "/api/db/query" ->
  KvD1.routes request = db_query request.
Proof. intros Hm Hp. unfold KvD1.routes. rewrite Hm, Hp. reflexivity. Qed.

End Branches.

(** ** The dispatchers *)

Section Dispatchers.

Context {D : Type} `{Runtime D}.

(** C10.  An authenticated [GET] on [/api/kv/<key>] or [/api/files/<key>]
    only reads: whether or not the key is present, the dispatcher returns a
    response and [env] (key-value store, object store, database) is the same
    afterwards.  This holds for the full dispatcher and for the KV + D1 one. *)
Theorem retrieval_is_read_only (env : Env D) (now : Z) (request : Request) :
  verifyBasicAuth env request = None ->
  method request = "GET" ->
  startsWith (pathname request) "/api/kv/" = true
  \/ startsWith (pathname request) "/api/files/" = true ->
  (exists r, Full.handleFetch now request env = (Return r, env))
  /\ (startsWith (pathname request) "/api/kv/" = true ->
      exists r, KvD1.handleFetch request env = (Return r, env)).
Proof.
  intros Hauth Hm Hp.
  unfold Full.handleFetch, KvD1.handleFetch. rewrite Hauth. split.
  - destruct Hp as [Hp | Hp].
    + rewrite (Full_routes_kv_get now request Hm Hp), kv_retrieve_reads.
      eexists; reflexivity.
    + rewrite (Full_routes_files_get now request Hm Hp), files_download_reads.
      eexists; reflexivity.
  - intros Hp'.
    rewrite (KvD1_routes_kv_get request Hm Hp'), kv_retrieve_reads.
    eexists; reflexivity.
Qed.

(** A key that is the tail of a pathname.  After an authenticated
    [POST /api/kv] with body [{ key: K, value: V }], which is acknowledged
    with status 200 and the body [{"success":true,"key":K}], an
    authenticated [GET] whose pathname is [/api/kv/K] returns status 200
    with the body [JSON.stringify(V)]. *)
Theorem kv_round_trip
  (env : Env D) (now now' : Z) (post get : Request)
  (members : list (string * JSON)) (K : string) (V : JSON) :
  verifyBasicAuth env post = None ->
  verifyBasicAuth env get = None ->
  method post = "POST" ->
  pathname post = "/api/kv" ->
  json post = Return (JObj members) ->
  lookup_member "key" members = Some (JStr K) ->
  lookup_member "value" members = Some V ->
  method get = "GET" ->
  pathname get = "/api/kv/" +:+ K ->
  exists ack env',
    Full.handleFetch now post env = (Return ack, env')
    /\ status ack = 200
    /\ body ack = Text (stringify (JObj [("success", JBool true); ("key", JStr K)]))
    /\ exists r,
         Full.handleFetch now' get env' = (Return r, env')
         /\ status r = 200
         /\ body r = Text (stringify V).
Proof.
  intros Hpost Hget Hm Hp Hjson Hkey Hval Hm' Hp'.
  eexists _, _. split.
  { unfold Full.handleFetch. rewrite Hpost.
    rewrite (Full_routes_kv_post now post Hm Hp).
    apply (kv_store_writes post env members K V Hjson Hkey Hval). }
  split; [reflexivity|]. split; [reflexivity|].
  set (env' := with_STORAGE _ env).
  assert (Hget' : verifyBasicAuth env' get = None).
  { rewrite <- Hget. apply verifyBasicAuth_credentials; reflexivity. }
  assert (Hpre : startsWith (pathname get) "/api/kv/" = true).
  { rewrite Hp'. apply prefix_append. }
  unfold Full.handleFetch. rewrite Hget'.
  rewrite (Full_routes_kv_get now' get Hm' Hpre), kv_retrieve_reads.
  rewrite Hp', replace_prefix.
  subst env'. simpl STORAGE. rewrite lookup_insert_eq.
  destruct (stringify_nonempty V) as (c & s & ->).
  eexists. split; [reflexivity|]. split; reflexivity.
Qed.

(** C5.  An authenticated [POST /api/db/query] with body [{ sql, params }],
    [params] an array or absent: when the SQL engine faults, the dispatcher
    returns (does not throw) status 400 with the JSON body
    [{"success":false,"error":<message>}]; when it succeeds, status 200 with
    [{"success":true,"result":<result>}].  The same holds for the KV + D1
    dispatcher. *)
Theorem query_outcome_is_reshaped
  (env : Env D) (now : Z) (request : Request)
  (members : list (string * JSON)) (args : list JSON) :
  verifyBasicAuth env request = None ->
  method request = "POST" ->
  pathname request = "/api/db/query" ->
  json request = Return (JObj members) ->
  lookup_member "params" members = Some (JArr args)
  \/ (lookup_member "params" members = None /\ args = []) ->
  let sql := lookup_member "sql" members in
  (forall e db',
      DB_all sql args (DB env) = (Throw e, db') ->
      exists r,
        Full.handleFetch now request env = (Return r, with_DB db' env)
        /\ KvD1.handleFetch request env = (Return r, with_DB db' env)
        /\ status r = 400
        /\ Headers.get (response_headers r) "Content-Type" = Some "application/json"
        /\ body r = Text (stringify (JObj [("success", JBool false);
                                           ("error", JStr (message e))])))
  /\ (forall result db',
      DB_all sql args (DB env) = (Return result, db') ->
      exists r,
        Full.handleFetch now request env = (Return r, with_DB db' env)
        /\ KvD1.handleFetch request env = (Return r, with_DB db' env)
        /\ status r = 200
        /\ Headers.get (response_headers r) "Content-Type" = Some "application/json"
        /\ body r = Text (stringify (JObj [("success", JBool true);
                                           ("result", result)]))).
Proof.
  intros Hauth Hm Hp Hjson Hparams sql.
  assert (Hq : db_query request env =
               match DB_all sql args (DB env) with
               | (Return result, db') =>
                   (Return (json_response
                              (JObj [("success", JBool true); ("result", result)]) None),
                    with_DB db' env)
               | (Throw e, db') =>
                   (Return (json_response
                              (JObj [("success", JBool false);
                                     ("error", JStr (message e))]) (Some 400)),
                    with_DB db' env)
               end).
  { unfold db_query. run_async. rewrite Hjson. simpl. fold sql.
    destruct Hparams as [-> | [-> ->]]; simpl;
      destruct (DB_all sql _ (DB env)) as [[result|e] db']; reflexivity. }
  unfold Full.handleFetch, KvD1.handleFetch. rewrite Hauth.
  rewrite (Full_routes_query now request Hm Hp), (KvD1_routes_query request Hm Hp), Hq.
  split; intros x db' ->; eexists; repeat split; reflexivity.
Qed.

End Dispatchers.

(** ** Uploads and downloads *)

Section Files.

Context {D : Type} `{Runtime D}.

(** Uploads by pathname.  An authenticated [POST /api/files] with a
    multipart form: without a [file] field the answer is 400 and nothing is
    written; with a file, the answer is 200 and names the key
    [uploads/<Date.now()>-<file name>], and an authenticated [GET] whose
    pathname is [/api/files/<that key>] afterwards returns status 200 with
    the file's bytes, its content type and an [etag]. *)
Theorem upload_then_download
  (env : Env D) (now : Z) (post : Request)
  (form : list (string * FormDataEntryValue)) :
  verifyBasicAuth env post = None ->
  method post = "POST" ->
  pathname post = "/api/files" ->
  formData post = Return form ->
  (formData_get form "file" = None ->
   exists r, Full.handleFetch now post env = (Return r, env) /\ status r = 400)
  /\ (forall f,
      formData_get form "file" = Some (FormFile f) ->
      let key := "uploads/" +:+ Number_toString now +:+ "-" +:+ file_name f in
      exists ack env',
        Full.handleFetch now post env = (Return ack, env')
        /\ status ack = 200
        /\ body ack = Text (stringify (JObj [("success", JBool true);
                                             ("key", JStr key);
                                             ("url", JStr ("/api/files/" +:+ key))]))
        /\ forall now' get,
             verifyBasicAuth env get = None ->
             method get = "GET" ->
             pathname get = "/api/files/" +:+ key ->
             exists r,
               Full.handleFetch now' get env' = (Return r, env')
               /\ status r = 200
               /\ body r = Stream (file_stream f)
               /\ Headers.get (response_headers r) "Content-Type" = Some (file_type f)
               /\ Headers.get (response_headers r) "ETag" = Some (R2_etag (file_stream f))).
Proof.
  intros Hauth Hm Hp Hform.
  assert (Hup : Full.handleFetch now post env = Full.files_upload now post env).
  { unfold Full.handleFetch. rewrite Hauth.
    rewrite (Full_routes_files_post now post Hm Hp). reflexivity. }
  split.
  - intros Hnone. rewrite Hup. unfold Full.files_upload. run_async.
    rewrite Hform. simpl. rewrite Hnone. eexists. split; reflexivity.
  - intros f Hfile key.
    eexists _, _. split.
    { rewrite Hup. unfold Full.files_upload. run_async.
      rewrite Hform. simpl. rewrite Hfile. reflexivity. }
    split; [reflexivity|]. split; [reflexivity|].
    intros now' get Hget Hm' Hp'.
    assert (Hpre : startsWith (pathname get) "/api/files/" = true).
    { rewrite Hp'. apply prefix_append. }
    unfold Full.handleFetch.
    match goal with
    | |- context [verifyBasicAuth ?e get] =>
        rewrite (verifyBasicAuth_credentials env e get eq_refl eq_refl), Hget
    end.
    rewrite (Full_routes_files_get now' get Hm' Hpre), files_download_reads.
    rewrite Hp', replace_prefix. simpl FILES. fold key.
    rewrite lookup_insert_eq.
    eexists. split; [reflexivity|]. repeat split; reflexivity.
Qed.

End Files.

(** ** The shape of failure responses *)

Section Failures.

Context {D : Type} `{Runtime D}.

Lemma kv_store_status (request : Request) (env env' : Env D) (r : Response) :
  kv_store request env = (Return r, env') -> status r = 200.
Proof.
  unfold kv_store. run_async. intros Hrun.
  repeat case_match; simplify_eq; reflexivity.
Qed.

Lemma kv_retrieve_status (prefix : string) (request : Request)
  (env env' : Env D) (r : Response) :
  kv_retrieve prefix request env = (Return r, env') ->
  status r = 200 \/ plain_failure r 404 "Not found".
Proof.
  rewrite kv_retrieve_reads. intros [= <- _].
  destruct (STORAGE env !! _) as [[|c v]|]; [right|left|right]; split; reflexivity.
Qed.

Lemma files_upload_status (now : Z) (request : Request)
  (env env' : Env D) (r : Response) :
  Full.files_upload now request env = (Return r, env') ->
  status r = 200 \/ plain_failure r 400 "No file provided".
Proof.
  unfold Full.files_upload. run_async. intros Hrun.
  repeat case_match; simplify_eq;
    first [left; reflexivity | right; split; reflexivity].
Qed.

Lemma files_download_status (request : Request) (env env' : Env D) (r : Response) :
  Full.files_download request env = (Return r, env') ->
  status r = 200 \/ plain_failure r 404 "File not found".
Proof.
  rewrite files_download_reads. intros [= <- _].
  destruct (FILES env !! _); [left | right; split]; reflexivity.
Qed.

Lemma db_query_status (request : Request) (env env' : Env D) (r : Response) :
  db_query request env = (Return r, env') ->
  status r = 200 \/ query_failure r.
Proof.
  unfold db_query. run_async. intros Hrun.
  repeat case_match; simplify_eq;
    first [left; reflexivity
          | right; split; [reflexivity|]; split; [reflexivity|];
            eexists; reflexivity].
Qed.

Lemma db_init_status (env env' : Env D) (r : Response) :
  db_init env = (Return r, env') -> status r = 200.
Proof.
  unfold db_init. run_async. intros Hrun.
  repeat case_match; simplify_eq; reflexivity.
Qed.

Lemma Full_routes_status (now : Z) (request : Request) (env env' : Env D) (r : Response) :
  Full.routes now request env = (Return r, env') ->
  status r = 200
  \/ plain_failure r 404 "Not found"
  \/ plain_failure r 404 "File not found"
  \/ plain_failure r 400 "No file provided"
  \/ query_failure r.
Proof.
  unfold Full.routes.
  repeat match goal with
         | |- context [if ?c then _ else _] => destruct c
         end; intros Hrun.
  - injection Hrun as <- _. left; reflexivity.
  - left. eapply kv_store_status, Hrun.
  - destruct (kv_retrieve_status _ _ _ _ _ Hrun); auto.
  - destruct (files_upload_status _ _ _ _ _ Hrun); auto.
  - destruct (files_download_status _ _ _ _ Hrun); auto.
  - destruct (db_query_status _ _ _ _ Hrun); auto 6.
  - left. eapply db_init_status, Hrun.
  - injection Hrun as <- _. left; reflexivity.
Qed.

Lemma KvD1_routes_status (request : Request) (env env' : Env D) (r : Response) :
  KvD1.routes request env = (Return r, env') ->
  status r = 200
  \/ plain_failure r 404 "Not found"
  \/ query_failure r.
Proof.
  unfold KvD1.routes.
  repeat match goal with
         | |- context [if ?c then _ else _] => destruct c
         end; intros Hrun.
  - injection Hrun as <- _. left; reflexivity.
  - left. eapply kv_store_status, Hrun.
  - destruct (kv_retrieve_status _ _ _ _ _ Hrun); auto.
  - destruct (db_query_status _ _ _ _ Hrun); auto.
  - left. eapply db_init_status, Hrun.
  - injection Hrun as <- _. left; reflexivity.
Qed.

(** Every response of the full dispatcher or of the KV + D1 dispatcher
    whose status is not 200 has one of five shapes. *)
Lemma failure_responses_have_known_shapes
  (env env' : Env D) (now : Z) (request : Request) (r : Response) :
  Full.handleFetch now request env = (Return r, env')
  \/ KvD1.handleFetch request env = (Return r, env') ->
  status r <> 200 ->
  plain_failure r 401 "Unauthorized"
  \/ plain_failure r 404 "Not found"
  \/ plain_failure r 404 "File not found"
  \/ plain_failure r 400 "No file provided"
  \/ query_failure r.
Proof.
  intros Hrun Hfail.
  unfold Full.handleFetch, KvD1.handleFetch in Hrun.
  destruct (verifyBasicAuth env request) as [authError|] eqn:Hauth.
  - left.
    assert (r = authError) as -> by (destruct Hrun as [Hrun|Hrun]; congruence).
    destruct (verifyBasicAuth_rejections env request authError Hauth) as [-> | ->];
      split; reflexivity.
  - right. destruct Hrun as [Hrun|Hrun].
    + destruct (Full_routes_status _ _ _ _ _ Hrun) as [?|?]; [contradiction | assumption].
    + destruct (KvD1_routes_status _ _ _ _ Hrun) as [?|[?|?]];
        [contradiction | auto | auto 6].
Qed.

End Failures.

(** ** The limits are declared but not enforced *)

Lemma length_append (a b : string) :
  String.length (a +:+ b) = (String.length a + String.length b)%nat.
Proof. induction a as [|c a IH]; simpl; [reflexivity | now rewrite IH]. Qed.

Lemma escape_length (c : ascii) : (1 <= String.length (escape c))%nat.
Proof. unfold escape. repeat case_match; simpl; lia. Qed.

Lemma escape_all_length (s : string) :
  (String.length s <= String.length (escape_all s))%nat.
Proof.
  induction s as [|c s IH]; simpl; [lia|].
  rewrite length_append. pose proof (escape_length c). lia.
Qed.

(** A string serializes to at least its own length plus the two quotes. *)
Lemma serialized_size_JStr (s : string) :
  Z.of_nat (String.length s) + 2 <= serialized_size (JStr s).
Proof.
  unfold serialized_size.
  change (stringify (JStr s)) with (quote s). unfold quote.
  change (String.length (String dquote (escape_all s +:+ String dquote EmptyString)))
    with (S (String.length (escape_all s +:+ String dquote EmptyString))).
  rewrite length_append.
  change (String.length (String dquote EmptyString)) with 1%nat.
  pose proof (escape_all_length s). lia.
Qed.

Lemma doubled_length (n : nat) (s : string) :
  Z.of_nat (String.length (doubled n s)) = 2 ^ Z.of_nat n * Z.of_nat (String.length s).
Proof.
  revert s. induction n as [|n IH]; intros s.
  - change (doubled 0 s) with s. change (Z.of_nat 0) with 0. lia.
  - change (doubled (S n) s) with (doubled n (s +:+ s)).
    rewrite IH, length_append, Nat2Z.inj_succ, Z.pow_succ_r by lia. lia.
Qed.

Lemma oversized_value_size :
  Full.maxValueSize (Full.kv Full.FREE_TIER_LIMITS) < serialized_size oversized_value.
Proof.
  unfold oversized_value.
  pose proof (serialized_size_JStr (doubled 25 "a")) as Hsize.
  rewrite doubled_length in Hsize.
  change (2 ^ Z.of_nat 25 * Z.of_nat (String.length "a")) with 33554432 in Hsize.
  change (Full.maxValueSize (Full.kv Full.FREE_TIER_LIMITS)) with 26214400.
  revert Hsize. generalize (serialized_size (JStr (doubled 25 "a"))). intros z Hz. lia.
Qed.

(** What [checkLimits] would answer for a KV value above the maximum. *)
Lemma checkLimits_kv_rejects (size : Z) :
  Full.maxValueSize (Full.kv Full.FREE_TIER_LIMITS) < size ->
  exists r, Full.checkLimits Full.type_kv size = Some r /\ status r = 413.
Proof.
  intros Hsize. unfold Full.checkLimits.
  change (Full.is_kv Full.type_kv) with true.
  assert ((size >? Full.maxValueSize (Full.kv Full.FREE_TIER_LIMITS)) = true) as -> by lia.
  eexists. split; reflexivity.
Qed.

(** C7, on the code.  The value [oversized_value] serializes to more than
    [maxValueSize]; [checkLimits] would answer 413 for it; yet the full
    dispatcher, which never calls [checkLimits], writes it to the key-value
    store and answers 200. *)
Theorem oversized_value_is_written :
  Full.maxValueSize (Full.kv Full.FREE_TIER_LIMITS) < serialized_size oversized_value
  /\ (exists r, Full.checkLimits Full.type_kv (serialized_size oversized_value) = Some r
                /\ status r = 413)
  /\ (exists r,
        Full.handleFetch 0 oversized_post InMemory.open_env
        = (Return r,
           with_STORAGE (<["big" := stringify oversized_value]> ∅) InMemory.open_env)
        /\ status r = 200).
Proof.
  split; [exact oversized_value_size|].
  split; [exact (checkLimits_kv_rejects _ oversized_value_size)|].
  unfold Full.handleFetch.
  change (verifyBasicAuth InMemory.open_env oversized_post) with (@None Response).
  rewrite (Full_routes_kv_post 0 oversized_post eq_refl eq_refl).
  rewrite (kv_store_writes oversized_post InMemory.open_env
             [("key", JStr "big"); ("value", oversized_value)] "big" oversized_value
             eq_refl eq_refl eq_refl).
  eexists. split; reflexivity.
Qed.

(** ** The claims at concrete requests *)

(** The text of a value never starts with a capital N. *)
Lemma stringify_not_capital_N (v : JSON) (s : string) : stringify v <> String "N" s.
Proof.
  destruct v as [|[|]|z|t|items|members]; simpl; try discriminate.
  unfold Number_toString.
  destruct z as [|q|q]; simpl; try discriminate.
  destruct (Pos.to_uint q); simpl; discriminate.
Qed.

(** C8 as stated fails: with nothing stored, [GET /api/kv/missing] is
    answered 404 with the body [Not found], which is not a JSON text. *)
Lemma not_found_body_is_not_JSON :
  exists r,
    Full.handleFetch 0 (InMemory.bare "GET" "/api/kv/missing" []) InMemory.open_env
    = (Return r, InMemory.open_env)
    /\ status r = 404
    /\ ~ JSON_body r.
Proof.
  eexists. split; [reflexivity|]. split; [reflexivity|].
  intros [v Hv]. simpl in Hv. injection Hv as Hv.
  symmetry in Hv. exact (stringify_not_capital_N v _ Hv).
Qed.

Lemma basic_credentials_decide_access_witness :
  verifyBasicAuth InMemory.locked_env
    (InMemory.bare "GET" "/api/status" [("authorization", "Basic YWRtaW46c2VjcmV0")])
  = None.
Proof.
  pose proof (basic_credentials_decide_access InMemory.locked_env 0
                (InMemory.bare "GET" "/api/status"
                   [("authorization", "Basic YWRtaW46c2VjcmV0")])
                "admin" "secret" "Basic YWRtaW46c2VjcmV0"
                eq_refl eq_refl ltac:(discriminate) eq_refl eq_refl) as [[_ Hpass] _].
  apply Hpass. reflexivity.
Defined.

Lemma kv_round_trip_witness :
  exists ack env' r,
    Full.handleFetch 0
      (InMemory.with_json "POST" "/api/kv" []
         (JObj [("key", JStr "greeting"); ("value", JArr [JNum 1; JStr "hi"])]))
      InMemory.open_env = (Return ack, env')
    /\ Full.handleFetch 1 (InMemory.bare "GET" "/api/kv/greeting" []) env' = (Return r, env')
    /\ status r = 200
    /\ body r = Text (stringify (JArr [JNum 1; JStr "hi"])).
Proof.
  destruct (kv_round_trip InMemory.open_env 0 1
              (InMemory.with_json "POST" "/api/kv" []
                 (JObj [("key", JStr "greeting"); ("value", JArr [JNum 1; JStr "hi"])]))
              (InMemory.bare "GET" "/api/kv/greeting" [])
              [("key", JStr "greeting"); ("value", JArr [JNum 1; JStr "hi"])]
              "greeting" (JArr [JNum 1; JStr "hi"])
              eq_refl eq_refl eq_refl eq_refl eq_refl eq_refl eq_refl eq_refl eq_refl)
    as (ack & env' & Hpost & _ & _ & r & Hget & Hstatus & Hbody).
  exists ack, env', r. auto.
Defined.

Lemma no_password_allows_every_request_witness :
  verifyBasicAuth InMemory.open_env
    (InMemory.bare "DELETE" "/anything" [("Authorization", "Bearer xyz")]) = None.
Proof.
  exact (proj1 (no_password_allows_every_request InMemory.open_env 0
                  (InMemory.bare "DELETE" "/anything" [("Authorization", "Bearer xyz")])
                  (or_introl eq_refl))).
Defined.

Lemma missing_or_non_basic_header_is_challenged_witness :
  exists r,
    Full.handleFetch 0
      (InMemory.bare "GET" "/api/status" [("Authorization", "Bearer xyz")])
      InMemory.locked_env = (Return r, InMemory.locked_env)
    /\ status r = 401.
Proof.
  destruct (missing_or_non_basic_header_is_challenged InMemory.locked_env 0
              (InMemory.bare "GET" "/api/status" [("Authorization", "Bearer xyz")])
              "secret" eq_refl ltac:(discriminate)
              ltac:(intros a [= <-]; reflexivity))
    as (r & _ & Hstatus & _ & Hfull & _).
  exists r. auto.
Defined.

Lemma query_outcome_is_reshaped_witness :
  exists r,
    Full.handleFetch 0
      (InMemory.with_json "POST" "/api/db/query" [] (JObj [("sql", JStr "SELEC 1")]))
      InMemory.open_env = (Return r, InMemory.open_env)
    /\ status r = 400.
Proof.
  destruct (query_outcome_is_reshaped InMemory.open_env 0
              (InMemory.with_json "POST" "/api/db/query" [] (JObj [("sql", JStr "SELEC 1")]))
              [("sql", JStr "SELEC 1")] []
              eq_refl eq_refl eq_refl eq_refl (or_intror (conj eq_refl eq_refl)))
    as [Hfault _].
  destruct (Hfault {| message := "D1_ERROR: syntax error" |} [] eq_refl)
    as (r & Hfull & _ & Hstatus & _).
  exists r. auto.
Defined.

Lemma rejected_request_touches_nothing_witness :
  Full.handleFetch 0 (InMemory.bare "POST" "/api/db/init" []) InMemory.locked_env
  = (Return unauthorized_challenge, InMemory.locked_env).
Proof.
  exact (proj1 (rejected_request_touches_nothing InMemory.locked_env 0
                  (InMemory.bare "POST" "/api/db/init" []) unauthorized_challenge eq_refl)).
Defined.

Lemma upload_then_download_witness :
  exists ack env' r,
    Full.handleFetch 1700000000000
      (InMemory.with_form "POST" "/api/files" [] [("file", FormFile InMemory.hello_txt)])
      InMemory.open_env = (Return ack, env')
    /\ Full.handleFetch 1700000000001
         (InMemory.bare "GET" "/api/files/uploads/1700000000000-hello.txt" []) env'
       = (Return r, env')
    /\ body r = Stream [Byte.x68; Byte.x69]
    /\ Headers.get (response_headers r) "Content-Type" = Some "text/plain".
Proof.
  destruct (upload_then_download InMemory.open_env 1700000000000
              (InMemory.with_form "POST" "/api/files" []
                 [("file", FormFile InMemory.hello_txt)])
              [("file", FormFile InMemory.hello_txt)]
              eq_refl eq_refl eq_refl eq_refl) as [_ Hfile].
  destruct (Hfile InMemory.hello_txt eq_refl) as (ack & env' & Hpost & _ & _ & Hlater).
  destruct (Hlater 1700000000001
              (InMemory.bare "GET" "/api/files/uploads/1700000000000-hello.txt" [])
              eq_refl eq_refl eq_refl) as (r & Hget & _ & Hbody & Htype & _).
  exists ack, env', r. auto.
Defined.

Lemma retrieval_is_read_only_witness :
  exists r,
    Full.handleFetch 0 (InMemory.bare "GET" "/api/files/nothing-here" []) InMemory.open_env
    = (Return r, InMemory.open_env).
Proof.
  exact (proj1 (retrieval_is_read_only InMemory.open_env 0
                  (InMemory.bare "GET" "/api/files/nothing-here" [])
                  eq_refl eq_refl (or_intror eq_refl))).
Defined.

(** ** The definitions at work *)

Example btoa_admin : btoa "admin:your-password" = "YWRtaW46eW91ci1wYXNzd29yZA==".
Proof. reflexivity. Qed.

Example btoa_one_pad : btoa "ab" = "YWI=".
Proof. reflexivity. Qed.

Example btoa_no_pad : btoa "u:p" = "dTpw".
Proof. reflexivity. Qed.

Example stringify_nested :
  stringify (JObj [("ok", JBool true); ("n", JArr [JNum (-12); JNull; JNum 0])])
  = "{" +:+ quote "ok" +:+ ":true," +:+ quote "n" +:+ ":[-12,null,0]}".
Proof. reflexivity. Qed.

Example quote_escapes : quote "a\b" = String dquote ("a\\b" +:+ String dquote EmptyString).
Proof. reflexivity. Qed.

Example quote_control :
  quote (String "010"%char (String "001"%char EmptyString))
  = String dquote ("\n\u0001" +:+ String dquote EmptyString).
Proof. reflexivity. Qed.

Example replace_first_only :
  replace "/api/kv/" EmptyString "/api/kv//api/kv/x" = "/api/kv/x".
Proof. reflexivity. Qed.

Example header_names_ignore_case :
  Headers.get [("content-type", "text/plain"); ("ETag", "x")] "etag" = Some "x".
Proof. reflexivity. Qed.

Example undefined_username_is_interpolated :
  verifyBasicAuth
    {| SERVER_USERNAME := None; SERVER_PASSWORD := Some "pw";
       STORAGE := ∅; FILES := ∅; DB := ([] : list string) |}
    (InMemory.bare "GET" "/" [("Authorization", "Basic " +:+ btoa "undefined:pw")])
  = None.
Proof. reflexivity. Qed.

Example wrong_password_is_rejected :
  verifyBasicAuth InMemory.locked_env
    (InMemory.bare "GET" "/" [("Authorization", "Basic " +:+ btoa "admin:secreT")])
  = Some unauthorized_mismatch.
Proof. reflexivity. Qed.

Example status_wins_over_method :
  Full.handleFetch 0 (InMemory.bare "POST" "/api/status" []) InMemory.open_env
  = (Return Full.status_response, InMemory.open_env).
Proof. reflexivity. Qed.

Example unmatched_path_is_documented :
  KvOnly.handleFetch 0 (InMemory.bare "GET" "/api/kv/x" []) InMemory.open_env
  = (Return KvOnly.documentation, InMemory.open_env).
Proof. reflexivity. Qed.

Example init_records_the_schema :
  Full.handleFetch 0 (InMemory.bare "POST" "/api/db/init" []) InMemory.open_env
  = (Return (json_response
               (JObj [("success", JBool true); ("message", JStr "Database initialized")])
               None),
     with_DB [init_schema] InMemory.open_env).
Proof. reflexivity. Qed.

Example null_body_is_thrown :
  fst (Full.handleFetch 0 (InMemory.with_json "POST" "/api/kv" [] JNull) InMemory.open_env)
  = Throw (engine_error NotDestructurable).
Proof. reflexivity. Qed.

Example checkLimits_accepts_the_maximum :
  Full.checkLimits Full.type_kv (25 * 1024 * 1024) = None.
Proof. reflexivity. Qed.

Example checkLimits_ignores_d1 :
  Full.checkLimits Full.type_d1 (10 ^ 12) = None.
Proof. reflexivity. Qed.

(** ** [btoa] tells strings apart *)

Section Base64Facts.

Local Open Scope N_scope.

Lemma bytes_forall (P : N -> bool) :
  forallb P (map N.of_nat (seq 0 256)) = true ->
  forall a, a < 256 -> P a = true.
Proof.
  intros Hall a Ha. rewrite forallb_forall in Hall. apply Hall.
  apply in_map_iff. exists (N.to_nat a). split; [lia|]. apply in_seq. lia.
Qed.

Lemma byte_pairs_forall (P : N -> N -> bool) :
  forallb (fun a => forallb (P a) (map N.of_nat (seq 0 256))) (map N.of_nat (seq 0 256)) = true ->
  forall a b, a < 256 -> b < 256 -> P a b = true.
Proof.
  intros Hall a b Ha Hb.
  apply (bytes_forall (P a)); [|exact Hb].
  apply (bytes_forall (fun a => forallb (P a) (map N.of_nat (seq 0 256))) Hall a Ha).
Qed.

(** The four sextets of a group of three bytes. *)
Lemma sextet_inj (n m : N) : n < 64 -> m < 64 -> sextet n = sextet m -> n = m.
Proof.
  assert (Hidx : forall k, k < 64 ->
            String.index 0 (String (sextet k) EmptyString) alphabet = Some (N.to_nat k)).
  { intros k Hk.
    pose proof (bytes_forall
      (fun k => if k <? 64
                then match String.index 0 (String (sextet k) EmptyString) alphabet with
                     | Some i => Nat.eqb i (N.to_nat k)
                     | None => false
                     end
                else true) ltac:(vm_compute; reflexivity) k ltac:(lia)) as Hb.
    cbv beta in Hb. destruct (N.ltb_spec k 64); [|lia].
    destruct (String.index _ _ _); [|discriminate].
    apply Nat.eqb_eq in Hb. now subst. }
  intros Hn Hm Heq.
  pose proof (Hidx n Hn) as H1. pose proof (Hidx m Hm) as H2.
  rewrite Heq in H1. rewrite H1 in H2. injection H2 as H2. lia.
Qed.

Lemma sextet_not_pad (n : N) : n < 64 -> sextet n <> "="%char.
Proof.
  intros Hn Heq.
  pose proof (bytes_forall
    (fun k => if k <? 64 then negb (Ascii.eqb (sextet k) "="%char) else true)
    ltac:(vm_compute; reflexivity) n ltac:(lia)) as Hb.
  cbv beta in Hb. destruct (N.ltb_spec n 64); [|lia].
  rewrite Heq in Hb. discriminate.
Qed.


(** How the bytes of a group sit in its sextets. *)
Lemma sextet_parts (a b : N) :
  a < 256 -> b < 256 ->
  N.shiftr a 2 < 64
  /\ N.land b 63 < 64
  /\ N.lor (N.shiftl (N.land a 3) 4) (N.shiftr b 4) < 64
  /\ N.lor (N.shiftl (N.land a 15) 2) (N.shiftr b 6) < 64
  /\ N.shiftr (N.lor (N.shiftl (N.land a 3) 4) (N.shiftr b 4)) 4 = N.land a 3
  /\ N.land (N.lor (N.shiftl (N.land a 3) 4) (N.shiftr b 4)) 15 = N.shiftr b 4
  /\ N.shiftr (N.lor (N.shiftl (N.land a 15) 2) (N.shiftr b 6)) 2 = N.land a 15
  /\ N.land (N.lor (N.shiftl (N.land a 15) 2) (N.shiftr b 6)) 3 = N.shiftr b 6
  /\ N.lor (N.shiftl (N.shiftr a 2) 2) (N.land a 3) = a
  /\ N.lor (N.shiftl (N.shiftr a 4) 4) (N.land a 15) = a
  /\ N.lor (N.shiftl (N.shiftr a 6) 6) (N.land a 63) = a.
Proof.
  intros Ha Hb.
  pose proof (byte_pairs_forall
    (fun a b =>
       (N.shiftr a 2 <? 64)
       && (N.land b 63 <? 64)
       && (N.lor (N.shiftl (N.land a 3) 4) (N.shiftr b 4) <? 64)
       && (N.lor (N.shiftl (N.land a 15) 2) (N.shiftr b 6) <? 64)
       && (N.shiftr (N.lor (N.shiftl (N.land a 3) 4) (N.shiftr b 4)) 4 =? N.land a 3)
       && (N.land (N.lor (N.shiftl (N.land a 3) 4) (N.shiftr b 4)) 15 =? N.shiftr b 4)
       && (N.shiftr (N.lor (N.shiftl (N.land a 15) 2) (N.shiftr b 6)) 2 =? N.land a 15)
       && (N.land (N.lor (N.shiftl (N.land a 15) 2) (N.shiftr b 6)) 3 =? N.shiftr b 6)
       && (N.lor (N.shiftl (N.shiftr a 2) 2) (N.land a 3) =? a)
       && (N.lor (N.shiftl (N.shiftr a 4) 4) (N.land a 15) =? a)
       && (N.lor (N.shiftl (N.shiftr a 6) 6) (N.land a 63) =? a))%bool
    ltac:(vm_compute; reflexivity) a b Ha Hb) as Hall.
  cbv beta in Hall.
  repeat (apply andb_prop in Hall; destruct Hall as [Hall ?]).
  repeat match goal with
         | Hx : (_ <? _) = true |- _ => apply N.ltb_lt in Hx
         | Hx : (_ =? _) = true |- _ => apply N.eqb_eq in Hx
         end.
  repeat split; assumption.
Qed.


Lemma sextet_parts_partial (a : N) :
  a < 256 ->
  N.shiftl (N.land a 3) 4 < 64
  /\ N.shiftl (N.land a 15) 2 < 64
  /\ N.shiftr (N.shiftl (N.land a 3) 4) 4 = N.land a 3
  /\ N.shiftr (N.shiftl (N.land a 15) 2) 2 = N.land a 15.
Proof.
  intros Ha.
  pose proof (bytes_forall
    (fun a =>
       (N.shiftl (N.land a 3) 4 <? 64)
       && (N.shiftl (N.land a 15) 2 <? 64)
       && (N.shiftr (N.shiftl (N.land a 3) 4) 4 =? N.land a 3)
       && (N.shiftr (N.shiftl (N.land a 15) 2) 2 =? N.land a 15))%bool
    ltac:(vm_compute; reflexivity) a Ha) as Hall.
  cbv beta in Hall.
  repeat (apply andb_prop in Hall; destruct Hall as [Hall ?]).
  repeat match goal with
         | Hx : (_ <? _) = true |- _ => apply N.ltb_lt in Hx
         | Hx : (_ =? _) = true |- _ => apply N.eqb_eq in Hx
         end.
  repeat split; assumption.
Qed.

Lemma list_triples_ind (P : list N -> Prop) :
  P [] ->
  (forall a, P [a]) ->
  (forall a b, P [a; b]) ->
  (forall a b c r, P r -> P (a :: b :: c :: r)) ->
  forall l, P l.
Proof.
  intros H0 H1 H2 H3 l.
  assert (Hall : P l /\ (forall a, P (a :: l)) /\ (forall a b, P (a :: b :: l))).
  { induction l as [|x l (IH0 & IH1 & IH2)]; auto. }
  apply Hall.
Qed.

(** From equal sextets back to equal bytes. *)
Lemma join_first (a a' b b' : N) :
  a < 256 -> a' < 256 -> b < 256 -> b' < 256 ->
  sextet (N.shiftr a 2) = sextet (N.shiftr a' 2) ->
  sextet (N.lor (N.shiftl (N.land a 3) 4) (N.shiftr b 4))
  = sextet (N.lor (N.shiftl (N.land a' 3) 4) (N.shiftr b' 4)) ->
  a = a' /\ N.shiftr b 4 = N.shiftr b' 4.
Proof.
  intros Ha Ha' Hb Hb' E1 E2.
  destruct (sextet_parts a b Ha Hb) as (B1 & _ & B2 & _ & P1 & P2 & _ & _ & J & _).
  destruct (sextet_parts a' b' Ha' Hb') as (B1' & _ & B2' & _ & P1' & P2' & _ & _ & J' & _).
  apply sextet_inj in E1; [|assumption..].
  apply sextet_inj in E2; [|assumption..].
  split.
  - rewrite <- J, <- J', E1, <- P1, <- P1', E2. reflexivity.
  - rewrite <- P2, <- P2', E2. reflexivity.
Qed.

Lemma join_second (b b' c c' : N) :
  b < 256 -> b' < 256 -> c < 256 -> c' < 256 ->
  N.shiftr b 4 = N.shiftr b' 4 ->
  sextet (N.lor (N.shiftl (N.land b 15) 2) (N.shiftr c 6))
  = sextet (N.lor (N.shiftl (N.land b' 15) 2) (N.shiftr c' 6)) ->
  b = b' /\ N.shiftr c 6 = N.shiftr c' 6.
Proof.
  intros Hb Hb' Hc Hc' E1 E2.
  destruct (sextet_parts b c Hb Hc) as (_ & _ & _ & B3 & _ & _ & P1 & P2 & _ & J & _).
  destruct (sextet_parts b' c' Hb' Hc') as (_ & _ & _ & B3' & _ & _ & P1' & P2' & _ & J' & _).
  apply sextet_inj in E2; [|assumption..].
  split.
  - rewrite <- J, <- J', E1, <- P1, <- P1', E2. reflexivity.
  - rewrite <- P2, <- P2', E2. reflexivity.
Qed.

Lemma join_third (c c' : N) :
  c < 256 -> c' < 256 ->
  N.shiftr c 6 = N.shiftr c' 6 ->
  sextet (N.land c 63) = sextet (N.land c' 63) ->
  c = c'.
Proof.
  intros Hc Hc' E1 E2.
  destruct (sextet_parts c c Hc Hc) as (_ & B4 & _ & _ & _ & _ & _ & _ & _ & _ & J).
  destruct (sextet_parts c' c' Hc' Hc') as (_ & B4' & _ & _ & _ & _ & _ & _ & _ & _ & J').
  apply sextet_inj in E2; [|assumption..].
  rewrite <- J, <- J', E1, E2. reflexivity.
Qed.

Lemma sextet_bounds (b c : N) :
  b < 256 -> c < 256 ->
  N.shiftl (N.land b 15) 2 < 64
  /\ N.lor (N.shiftl (N.land b 15) 2) (N.shiftr c 6) < 64
  /\ N.land c 63 < 64.
Proof.
  intros Hb Hc.
  destruct (sextet_parts b c Hb Hc) as (_ & B4 & _ & B3 & _).
  destruct (sextet_parts_partial b Hb) as (_ & B3p & _).
  auto.
Qed.

Ltac pad_clash :=
  exfalso;
  match goal with
  | Hx : "="%char = sextet _ |- _ => symmetry in Hx; revert Hx
  | Hx : sextet _ = "="%char |- _ => revert Hx
  end;
  apply sextet_not_pad;
  match goal with
  | Hb : ?b < 256, Hc : ?c < 256 |- N.shiftl (N.land ?b 15) 2 < 64 =>
      exact (proj1 (sextet_bounds b c Hb Hc))
  | Hb : ?b < 256, Hc : ?c < 256
    |- N.lor (N.shiftl (N.land ?b 15) 2) (N.shiftr ?c 6) < 64 =>
      exact (proj1 (proj2 (sextet_bounds b c Hb Hc)))
  | Hb : ?b < 256, Hc : ?c < 256 |- N.land ?c 63 < 64 =>
      exact (proj2 (proj2 (sextet_bounds b c Hb Hc)))
  end.

(** The base64 text determines the bytes. *)
Lemma encode_inj :
  forall l1 l2 : list N,
    Forall (fun x => x < 256) l1 ->
    Forall (fun x => x < 256) l2 ->
    encode l1 = encode l2 -> l1 = l2.
Proof.
  apply (list_triples_ind
           (fun l1 => forall l2,
                Forall (fun x => x < 256) l1 ->
                Forall (fun x => x < 256) l2 ->
                encode l1 = encode l2 -> l1 = l2));
    [ | intros a | intros a b | intros a b c r IH];
    intros l2 H1 H2 He; destruct l2 as [ | a' [ | b' [ | c' r' ] ] ]; cbn [encode] in He;
    try discriminate He; try reflexivity;
    repeat match goal with
           | Hf : Forall _ (_ :: _) |- _ => inversion_clear Hf
           end;
    repeat match goal with
           | Hs : String _ _ = String _ _ |- _ => injection Hs as ? ?
           end;
    try pad_clash.
  - (* one byte each *)
    match goal with
    | E1 : sextet (N.shiftr a 2) = _, E2 : sextet (N.shiftl (N.land a 3) 4) = _ |- _ =>
        rewrite <- (N.lor_0_r (N.shiftl (N.land a 3) 4)),
                <- (N.lor_0_r (N.shiftl (N.land a' 3) 4)) in E2;
        destruct (join_first a a' 0 0 ltac:(assumption) ltac:(assumption)
                    ltac:(lia) ltac:(lia) E1 E2) as [-> _]
    end.
    reflexivity.
  - (* two bytes each *)
    match goal with
    | E1 : sextet (N.shiftr a 2) = _,
      E2 : sextet (N.lor (N.shiftl (N.land a 3) 4) _) = _,
      E3 : sextet (N.shiftl (N.land b 15) 2) = _ |- _ =>
        destruct (join_first a a' b b' ltac:(assumption) ltac:(assumption)
                    ltac:(assumption) ltac:(assumption) E1 E2) as [-> Eb];
        rewrite <- (N.lor_0_r (N.shiftl (N.land b 15) 2)),
                <- (N.lor_0_r (N.shiftl (N.land b' 15) 2)) in E3;
        destruct (join_second b b' 0 0 ltac:(assumption) ltac:(assumption)
                    ltac:(lia) ltac:(lia) Eb E3) as [-> _]
    end.
    reflexivity.
  - (* a full group each *)
    match goal with
    | E1 : sextet (N.shiftr a 2) = _,
      E2 : sextet (N.lor (N.shiftl (N.land a 3) 4) _) = _,
      E3 : sextet (N.lor (N.shiftl (N.land b 15) 2) _) = _,
      E4 : sextet (N.land c 63) = _,
      Er : encode r = encode r' |- _ =>
        destruct (join_first a a' b b' ltac:(assumption) ltac:(assumption)
                    ltac:(assumption) ltac:(assumption) E1 E2) as [-> Eb];
        destruct (join_second b b' c c' ltac:(assumption) ltac:(assumption)
                    ltac:(assumption) ltac:(assumption) Eb E3) as [-> Ec];
        rewrite (join_third c c' ltac:(assumption) ltac:(assumption) Ec E4);
        rewrite (IH r' ltac:(assumption) ltac:(assumption) Er)
    end.
    reflexivity.
Qed.

Lemma N_of_ascii_bound (c : ascii) : N_of_ascii c < 256.
Proof. apply N_ascii_bounded. Qed.

(** [btoa] is one-to-one: different strings have different encodings. *)
Lemma btoa_inj (s t : string) : btoa s = btoa t -> s = t.
Proof.
  unfold btoa. intros He.
  apply encode_inj in He.
  - rewrite <- (string_of_list_ascii_of_string s), <- (string_of_list_ascii_of_string t).
    f_equal.
    revert He. generalize (list_ascii_of_string s) (list_ascii_of_string t).
    induction l as [|x l IH]; intros [|y l']; simpl; intros E; try discriminate E.
    + reflexivity.
    + injection E as Exy El. f_equal; [|auto].
      rewrite <- (ascii_N_embedding x), <- (ascii_N_embedding y), Exy. reflexivity.
  - apply List.Forall_forall. intros x Hx. apply in_map_iff in Hx as (c & <- & _).
    apply N_of_ascii_bound.
  - apply List.Forall_forall. intros x Hx. apply in_map_iff in Hx as (c & <- & _).
    apply N_of_ascii_bound.
Qed.

End Base64Facts.

(** ** Which credentials pass *)

Section ExactCredentials.

Context {D : Type} `{Runtime D}.

(** X1.  With a non-empty password configured, a header [Basic <btoa s>]
    passes exactly when [s] is the configured [username:password], where an
    unset username reads [undefined]: no other string has the same
    encoding. *)
Theorem only_the_exact_credentials_pass
  (env : Env D) (request : Request) (p s : string) :
  SERVER_PASSWORD env = Some p ->
  p <> EmptyString ->
  Headers.get (headers request) "Authorization" = Some ("Basic " +:+ btoa s) ->
  (verifyBasicAuth env request = None
   <-> s = interpolate (SERVER_USERNAME env) +:+ ":" +:+ p).
Proof.
  intros Hpw Hne Hhdr.
  assert (Hv : verifyBasicAuth env request =
               if String.eqb (btoa s) (btoa (interpolate (SERVER_USERNAME env) +:+ ":" +:+ p))
               then None else Some unauthorized_mismatch).
  { unfold verifyBasicAuth. rewrite Hpw, Hhdr.
    destruct p as [|c p']; [contradiction|].
    change (falsy (Some (String c p'))) with false. cbv iota.
    unfold startsWith. rewrite prefix_append. cbv iota beta.
    change 6%nat with (String.length "Basic ").
    rewrite slice_length_append.
    change (interpolate (Some (String c p'))) with (String c p').
    destruct (String.eqb _ _); reflexivity. }
  rewrite Hv.
  destruct (String.eqb_spec (btoa s) (btoa (interpolate (SERVER_USERNAME env) +:+ ":" +:+ p)))
    as [E | E].
  - split; [intros _; apply btoa_inj, E | reflexivity].
  - split; [discriminate | intros ->; contradiction].
Qed.

End ExactCredentials.

(** ** What a request can change *)

Section Frames.

Context {D : Type} `{Runtime D}.

(** The store branch writes the key-value store and nothing else. *)
Lemma kv_store_frame (request : Request) (env env' : Env D) (o : Outcome Response) :
  kv_store request env = (o, env') ->
  SERVER_USERNAME env' = SERVER_USERNAME env
  /\ SERVER_PASSWORD env' = SERVER_PASSWORD env
  /\ FILES env' = FILES env
  /\ DB env' = DB env.
Proof.
  unfold kv_store. run_async. intros Hrun.
  repeat case_match; unfold ret, throw in *; simplify_eq; auto.
Qed.

Lemma KvOnly_store_frame (now : Z) (request : Request) (env env' : Env D)
  (o : Outcome Response) :
  KvOnly.store now request env = (o, env') ->
  SERVER_USERNAME env' = SERVER_USERNAME env
  /\ SERVER_PASSWORD env' = SERVER_PASSWORD env
  /\ FILES env' = FILES env
  /\ DB env' = DB env.
Proof.
  unfold KvOnly.store. run_async. intros Hrun.
  repeat case_match; unfold ret, throw in *; simplify_eq; auto.
Qed.

(** The upload branch writes the bucket and nothing else. *)
Lemma files_upload_frame (now : Z) (request : Request) (env env' : Env D)
  (o : Outcome Response) :
  Full.files_upload now request env = (o, env') ->
  SERVER_USERNAME env' = SERVER_USERNAME env
  /\ SERVER_PASSWORD env' = SERVER_PASSWORD env
  /\ STORAGE env' = STORAGE env
  /\ DB env' = DB env.
Proof.
  unfold Full.files_upload. run_async. intros Hrun.
  repeat case_match; unfold ret, throw in *; simplify_eq; auto.
Qed.

(** The two database branches change the database and nothing else. *)
Lemma db_query_frame (request : Request) (env env' : Env D) (o : Outcome Response) :
  db_query request env = (o, env') ->
  SERVER_USERNAME env' = SERVER_USERNAME env
  /\ SERVER_PASSWORD env' = SERVER_PASSWORD env
  /\ STORAGE env' = STORAGE env
  /\ FILES env' = FILES env.
Proof.
  unfold db_query. run_async. intros Hrun.
  repeat case_match; unfold ret, throw in *; simplify_eq; auto.
Qed.

Lemma db_init_frame (env env' : Env D) (o : Outcome Response) :
  db_init env = (o, env') ->
  SERVER_USERNAME env' = SERVER_USERNAME env
  /\ SERVER_PASSWORD env' = SERVER_PASSWORD env
  /\ STORAGE env' = STORAGE env
  /\ FILES env' = FILES env.
Proof.
  unfold db_init. run_async. intros Hrun.
  repeat case_match; unfold ret, throw in *; simplify_eq; auto.
Qed.

(** X2.  In the full dispatcher each store has its own door: whatever the
    outcome of a request, the key-value store can differ afterwards only
    for the path [/api/kv], the bucket only for [/api/files], and the
    database only for [/api/db/query] and [/api/db/init]. *)
Theorem each_store_has_its_route
  (env env' : Env D) (now : Z) (request : Request) (o : Outcome Response) :
  Full.handleFetch now request env = (o, env') ->
  (pathname request <> "/api/kv" -> STORAGE env' = STORAGE env)
  /\ (pathname request <> "/api/files" -> FILES env' = FILES env)
  /\ (pathname request <> "/api/db/query" -> pathname request <> "/api/db/init" ->
      DB env' = DB env).
Proof.
  unfold Full.handleFetch, Full.routes.
  destruct (verifyBasicAuth env request); [intros [= _ <-]; auto|].
  destruct (String.eqb_spec (pathname request) "/api/status");
    [run_async; intros [= _ <-]; auto|].
  destruct (String.eqb_spec (pathname request) "/api/kv") as [Ekv|Ekv]; cbn [andb].
  { destruct (String.eqb (method request) "POST").
    - intros Hrun. apply kv_store_frame in Hrun as (_ & _ & -> & ->).
      repeat split; auto. intros; contradiction.
    - rewrite Ekv. cbn. run_async. intros [= _ <-]. auto. }
  destruct (startsWith (pathname request) "/api/kv/" && String.eqb (method request) "GET").
  { rewrite kv_retrieve_reads. intros [= _ <-]. auto. }
  destruct (String.eqb_spec (pathname request) "/api/files") as [Ef|Ef]; cbn [andb].
  { destruct (String.eqb (method request) "POST").
    - intros Hrun. apply files_upload_frame in Hrun as (_ & _ & -> & ->).
      repeat split; auto. intros; contradiction.
    - rewrite Ef. cbn. run_async. intros [= _ <-]. auto. }
  destruct (startsWith (pathname request) "/api/files/" && String.eqb (method request) "GET").
  { rewrite files_download_reads. intros [= _ <-]. auto. }
  destruct (String.eqb_spec (pathname request) "/api/db/query") as [Eq|Eq]; cbn [andb].
  { destruct (String.eqb (method request) "POST").
    - intros Hrun. apply db_query_frame in Hrun as (_ & _ & -> & ->).
      repeat split; auto. intros; contradiction.
    - rewrite Eq. cbn. run_async. intros [= _ <-]. auto. }
  destruct (String.eqb_spec (pathname request) "/api/db/init") as [Ei|Ei]; cbn [andb].
  { destruct (String.eqb (method request) "POST").
    - intros Hrun. apply db_init_frame in Hrun as (_ & _ & -> & ->).
      repeat split; auto. intros; contradiction.
    - run_async. intros [= _ <-]. auto. }
  run_async. intros [= _ <-]. auto.
Qed.


Lemma Full_routes_credentials (env env' : Env D) (now : Z) (request : Request)
  (o : Outcome Response) :
  Full.routes now request env = (o, env') ->
  SERVER_USERNAME env' = SERVER_USERNAME env /\ SERVER_PASSWORD env' = SERVER_PASSWORD env.
Proof.
  unfold Full.routes.
  repeat match goal with
         | |- context [if ?c then _ else _] => destruct c
         end; intros Hrun;
    first [ apply kv_store_frame in Hrun
          | apply files_upload_frame in Hrun
          | apply db_query_frame in Hrun
          | apply db_init_frame in Hrun
          | rewrite kv_retrieve_reads in Hrun; injection Hrun as _ <-
          | rewrite files_download_reads in Hrun; injection Hrun as _ <-
          | injection Hrun as _ <- ];
    tauto.
Qed.

Lemma KvD1_routes_frame (env env' : Env D) (request : Request) (o : Outcome Response) :
  KvD1.routes request env = (o, env') ->
  SERVER_USERNAME env' = SERVER_USERNAME env
  /\ SERVER_PASSWORD env' = SERVER_PASSWORD env
  /\ FILES env' = FILES env.
Proof.
  unfold KvD1.routes.
  repeat match goal with
         | |- context [if ?c then _ else _] => destruct c
         end; intros Hrun;
    first [ apply kv_store_frame in Hrun
          | apply db_query_frame in Hrun
          | apply db_init_frame in Hrun
          | rewrite kv_retrieve_reads in Hrun; injection Hrun as _ <-
          | injection Hrun as _ <- ];
    tauto.
Qed.

Lemma KvOnly_routes_frame (env env' : Env D) (now : Z) (request : Request)
  (o : Outcome Response) :
  KvOnly.routes now request env = (o, env') ->
  SERVER_USERNAME env' = SERVER_USERNAME env
  /\ SERVER_PASSWORD env' = SERVER_PASSWORD env
  /\ FILES env' = FILES env
  /\ DB env' = DB env.
Proof.
  unfold KvOnly.routes.
  repeat match goal with
         | |- context [if ?c then _ else _] => destruct c
         end; intros Hrun;
    first [ apply KvOnly_store_frame in Hrun
          | rewrite kv_retrieve_reads in Hrun; injection Hrun as _ <-
          | injection Hrun as _ <- ];
    tauto.
Qed.

(** X3.  No request changes the credential pair, whatever its outcome and
    whichever dispatcher serves it; so the verdict of [verifyBasicAuth] on
    any request is the same before and after. *)
Theorem credentials_outlive_every_request
  (env env' : Env D) (now : Z) (request : Request) (o : Outcome Response) :
  Full.handleFetch now request env = (o, env')
  \/ KvD1.handleFetch request env = (o, env')
  \/ KvOnly.handleFetch now request env = (o, env') ->
  SERVER_USERNAME env' = SERVER_USERNAME env
  /\ SERVER_PASSWORD env' = SERVER_PASSWORD env
  /\ forall later, verifyBasicAuth env' later = verifyBasicAuth env later.
Proof.
  intros Hrun.
  assert (Hc : SERVER_USERNAME env' = SERVER_USERNAME env
               /\ SERVER_PASSWORD env' = SERVER_PASSWORD env).
  { unfold Full.handleFetch, KvD1.handleFetch, KvOnly.handleFetch in Hrun.
    destruct (verifyBasicAuth env request).
    - destruct Hrun as [Hrun | [Hrun | Hrun]]; injection Hrun as _ <-; auto.
    - destruct Hrun as [Hrun | [Hrun | Hrun]].
      + apply (Full_routes_credentials _ _ _ _ _ Hrun).
      + apply KvD1_routes_frame in Hrun. tauto.
      + apply KvOnly_routes_frame in Hrun. tauto. }
  destruct Hc as [Hu Hp]. repeat split; [assumption..|].
  intros later. apply verifyBasicAuth_credentials; assumption.
Qed.

(** X4.  The reduced dispatchers stay within their services: the KV + D1
    one never changes the bucket, the KV-only one changes neither the
    bucket nor the database, whatever the request and its outcome. *)
Theorem reduced_dispatchers_keep_to_their_stores
  (env env' : Env D) (now : Z) (request : Request) (o : Outcome Response) :
  (KvD1.handleFetch request env = (o, env') -> FILES env' = FILES env)
  /\ (KvOnly.handleFetch now request env = (o, env') ->
      FILES env' = FILES env /\ DB env' = DB env).
Proof.
  unfold KvD1.handleFetch, KvOnly.handleFetch.
  destruct (verifyBasicAuth env request).
  - split; intros [= _ <-]; auto.
  - split; intros Hrun.
    + apply KvD1_routes_frame in Hrun. tauto.
    + apply KvOnly_routes_frame in Hrun. tauto.
Qed.

(** X5.  Only [POST] writes: a request with any other method leaves [env]
    (key-value store, bucket, database) exactly as it was, whatever its path
    and whether or not it passes authentication, in each of the three
    dispatchers. *)
Theorem only_POST_writes (env : Env D) (now : Z) (request : Request) :
  method request <> "POST" ->
  snd (Full.handleFetch now request env) = env
  /\ snd (KvD1.handleFetch request env) = env
  /\ snd (KvOnly.handleFetch now request env) = env.
Proof.
  intros Hm. apply String.eqb_neq in Hm.
  unfold Full.handleFetch, KvD1.handleFetch, KvOnly.handleFetch.
  destruct (verifyBasicAuth env request); [repeat split; reflexivity|].
  unfold Full.routes, KvD1.routes, KvOnly.routes.
  rewrite Hm, !andb_false_r.
  repeat split;
    repeat match goal with
           | |- context [if ?c then _ else _] => destruct c
           end;
    rewrite ?kv_retrieve_reads, ?files_download_reads;
    reflexivity.
Qed.

End Frames.

(** ** Lookups *)

Section Lookups.

Context {D : Type} `{Runtime D}.

Lemma KvOnly_routes_store_get (now : Z) (request : Request) :
  method request = "GET" -> startsWith (pathname request) "/api/store/" = true ->
  KvOnly.routes now request = kv_retrieve "/api/store/" request.
Proof.
  intros Hm Hp. unfold KvOnly.routes. rewrite Hm, Hp.
  rewrite (startsWith_split _ _ Hp). reflexivity.
Qed.

Lemma KvOnly_routes_store_post (now : Z) (request : Request) :
  method request = "POST" -> pathname request = "/api/store" ->
  KvOnly.routes now request = KvOnly.store now request.
Proof. intros Hm Hp. unfold KvOnly.routes. rewrite Hm, Hp. reflexivity. Qed.

(** X6.  An authenticated [GET /api/kv/<K>] looks up exactly the path tail
    [K]: when nothing is stored under [K], or the stored text is empty, the
    answer is 404 [Not found]; otherwise it is 200 with the stored text as
    it is and the JSON content type.  The full and the KV + D1 dispatcher
    give the same answer. *)
Theorem kv_lookup_answers (env : Env D) (now : Z) (request : Request) (K : string) :
  verifyBasicAuth env request = None ->
  method request = "GET" ->
  pathname request = "/api/kv/" +:+ K ->
  exists r,
    Full.handleFetch now request env = (Return r, env)
    /\ KvD1.handleFetch request env = (Return r, env)
    /\ match STORAGE env !! K with
       | Some (String c v) =>
           status r = 200 /\ body r = Text (String c v)
           /\ Headers.get (response_headers r) "Content-Type" = Some "application/json"
       | _ => status r = 404 /\ body r = Text "Not found"
       end.
Proof.
  intros Hauth Hm Hp.
  assert (Hpre : startsWith (pathname request) "/api/kv/" = true).
  { rewrite Hp. apply prefix_append. }
  unfold Full.handleFetch, KvD1.handleFetch. rewrite Hauth.
  rewrite (Full_routes_kv_get now request Hm Hpre), (KvD1_routes_kv_get request Hm Hpre).
  rewrite kv_retrieve_reads, Hp, replace_prefix.
  eexists. split; [reflexivity|]. split; [reflexivity|].
  destruct (STORAGE env !! K) as [[|c v]|]; repeat split; reflexivity.
Qed.

(** X7.  An authenticated [GET /api/files/<K>] looks up the path tail [K]
    in the bucket: a missing object is answered 404 [File not found]; a
    stored one 200 with its bytes, its [etag], and a [Content-Type] header
    exactly when the object carries a content type. *)
Theorem file_lookup_answers (env : Env D) (now : Z) (request : Request) (K : string) :
  verifyBasicAuth env request = None ->
  method request = "GET" ->
  pathname request = "/api/files/" +:+ K ->
  exists r,
    Full.handleFetch now request env = (Return r, env)
    /\ match FILES env !! K with
       | Some o =>
           status r = 200 /\ body r = Stream (r2_body o)
           /\ Headers.get (response_headers r) "ETag" = Some (httpEtag o)
           /\ Headers.get (response_headers r) "Content-Type" = r2_contentType o
       | None => status r = 404 /\ body r = Text "File not found"
       end.
Proof.
  intros Hauth Hm Hp.
  assert (Hpre : startsWith (pathname request) "/api/files/" = true).
  { rewrite Hp. apply prefix_append. }
  unfold Full.handleFetch. rewrite Hauth.
  rewrite (Full_routes_files_get now request Hm Hpre).
  rewrite files_download_reads, Hp, replace_prefix.
  eexists. split; [reflexivity|].
  destruct (FILES env !! K) as [[bytes [ct|] etag]|]; repeat split; reflexivity.
Qed.

(** A [GET] is answered from the two stores alone. *)
Lemma Full_GET_depends_on_stores (env env' : Env D) (now : Z) (request : Request) :
  method request = "GET" ->
  SERVER_USERNAME env' = SERVER_USERNAME env ->
  SERVER_PASSWORD env' = SERVER_PASSWORD env ->
  (forall k, pathname request = "/api/kv/" +:+ k -> STORAGE env' !! k = STORAGE env !! k) ->
  (forall k, pathname request = "/api/files/" +:+ k -> FILES env' !! k = FILES env !! k) ->
  fst (Full.handleFetch now request env') = fst (Full.handleFetch now request env).
Proof.
  intros Hm Hu Hpw Hkv Hfiles.
  unfold Full.handleFetch.
  rewrite (verifyBasicAuth_credentials env env' request Hu Hpw).
  destruct (verifyBasicAuth env request); [reflexivity|].
  unfold Full.routes. rewrite Hm.
  change (String.eqb "GET" "POST") with false. change (String.eqb "GET" "GET") with true.
  rewrite !andb_false_r, !andb_true_r.
  destruct (String.eqb (pathname request) "/api/status"); [reflexivity|].
  destruct (startsWith (pathname request) "/api/kv/") eqn:Ekv.
  { rewrite !kv_retrieve_reads. cbn [fst].
    pose proof (startsWith_split _ _ Ekv) as Hsplit.
    remember (slice (String.length "/api/kv/") (pathname request)) as k.
    rewrite Hsplit, replace_prefix, (Hkv k Hsplit). reflexivity. }
  destruct (startsWith (pathname request) "/api/files/") eqn:Ef.
  { rewrite !files_download_reads. cbn [fst].
    pose proof (startsWith_split _ _ Ef) as Hsplit.
    remember (slice (String.length "/api/files/") (pathname request)) as k.
    rewrite Hsplit, replace_prefix, (Hfiles k Hsplit). reflexivity. }
  reflexivity.
Qed.

(** X8.  Storing under a key [K] changes the answer to no other [GET]:
    after an authenticated [POST /api/kv] with body [{ key: K, value: V }],
    every [GET] whose path is not [/api/kv/K] is answered as it would have
    been before. *)
Theorem storing_a_key_leaves_other_answers
  (env : Env D) (now : Z) (post : Request)
  (members : list (string * JSON)) (K : string) (V : JSON) :
  verifyBasicAuth env post = None ->
  method post = "POST" ->
  pathname post = "/api/kv" ->
  json post = Return (JObj members) ->
  lookup_member "key" members = Some (JStr K) ->
  lookup_member "value" members = Some V ->
  exists ack env',
    Full.handleFetch now post env = (Return ack, env')
    /\ forall now' later,
         method later = "GET" ->
         pathname later <> "/api/kv/" +:+ K ->
         fst (Full.handleFetch now' later env') = fst (Full.handleFetch now' later env).
Proof.
  intros Hauth Hm Hp Hjson Hkey Hval.
  eexists _, _. split.
  { unfold Full.handleFetch. rewrite Hauth, (Full_routes_kv_post now post Hm Hp).
    apply (kv_store_writes post env members K V Hjson Hkey Hval). }
  intros now' later Hm' Hne.
  apply Full_GET_depends_on_stores; try reflexivity; try assumption.
  intros k Hk. cbn [STORAGE with_STORAGE].
  apply lookup_insert_ne. intros ->. contradiction.
Qed.

(** X9.  An upload changes the answer to no other [GET]: after an
    authenticated [POST /api/files] with a file, every [GET] whose path is
    not [/api/files/<generated key>] is answered as before. *)
Theorem an_upload_leaves_other_answers
  (env : Env D) (now : Z) (post : Request)
  (form : list (string * FormDataEntryValue)) (f : File) :
  verifyBasicAuth env post = None ->
  method post = "POST" ->
  pathname post = "/api/files" ->
  formData post = Return form ->
  formData_get form "file" = Some (FormFile f) ->
  exists ack env',
    Full.handleFetch now post env = (Return ack, env')
    /\ forall now' later,
         method later = "GET" ->
         pathname later
         <> "/api/files/" +:+ "uploads/" +:+ Number_toString now +:+ "-" +:+ file_name f ->
         fst (Full.handleFetch now' later env') = fst (Full.handleFetch now' later env).
Proof.
  intros Hauth Hm Hp Hform Hfile.
  eexists _, _. split.
  { unfold Full.handleFetch. rewrite Hauth, (Full_routes_files_post now post Hm Hp).
    unfold Full.files_upload. run_async. rewrite Hform. simpl. rewrite Hfile. reflexivity. }
  intros now' later Hm' Hne.
  apply Full_GET_depends_on_stores; try reflexivity; try assumption.
  intros k Hk. cbn [FILES with_FILES].
  apply lookup_insert_ne. intros <-. contradiction.
Qed.

End Lookups.

(** ** Faults *)

Section Faults.

Context {D : Type} `{Runtime D}.

Lemma KvD1_routes_init (request : Request) :
  method request = "POST" -> pathname request = "/api/db/init" ->
  KvD1.routes request = db_init.
Proof. intros Hm Hp. unfold KvD1.routes. rewrite Hm, Hp. reflexivity. Qed.

Lemma Full_routes_init (now : Z) (request : Request) :
  method request = "POST" -> pathname request = "/api/db/init" ->
  Full.routes now request = db_init.
Proof. intros Hm Hp. unfold Full.routes. rewrite Hm, Hp. reflexivity. Qed.

(** X10.  A body that cannot be read is not reshaped.  On [POST /api/kv]
    and on [POST /api/db/query] alike (the [try] of the query route starts
    after the body is parsed), when [request.json()] throws, or yields
    [null], which cannot be destructured, the error is thrown to the caller
    and [env] is untouched. *)
Theorem unreadable_bodies_are_thrown
  (env : Env D) (now : Z) (request : Request) (e : JSError) :
  verifyBasicAuth env request = None ->
  method request = "POST" ->
  pathname request = "/api/kv" \/ pathname request = "/api/db/query" ->
  json request = Throw e
  \/ (json request = Return JNull /\ e = engine_error NotDestructurable) ->
  Full.handleFetch now request env = (Throw e, env)
  /\ KvD1.handleFetch request env = (Throw e, env).
Proof.
  intros Hauth Hm Hp Hbody.
  unfold Full.handleFetch, KvD1.handleFetch. rewrite Hauth.
  destruct Hp as [Hp | Hp].
  - rewrite (Full_routes_kv_post now request Hm Hp), (KvD1_routes_kv_post request Hm Hp).
    unfold kv_store. run_async.
    destruct Hbody as [-> | [-> ->]]; split; reflexivity.
  - rewrite (Full_routes_query now request Hm Hp), (KvD1_routes_query request Hm Hp).
    unfold db_query. run_async.
    destruct Hbody as [-> | [-> ->]]; split; reflexivity.
Qed.

(** X11.  [params] that cannot be spread never reach the SQL engine: for
    [params] that is [null], a boolean, a number or an object, the query
    route answers 400 with the engine's error message in the JSON body,
    and [env] (the database included) is untouched. *)
Theorem params_that_cannot_be_spread
  (env : Env D) (now : Z) (request : Request)
  (members : list (string * JSON)) (p : JSON) :
  verifyBasicAuth env request = None ->
  method request = "POST" ->
  pathname request = "/api/db/query" ->
  json request = Return (JObj members) ->
  lookup_member "params" members = Some p ->
  (forall items, p <> JArr items) ->
  (forall s, p <> JStr s) ->
  exists r,
    Full.handleFetch now request env = (Return r, env)
    /\ KvD1.handleFetch request env = (Return r, env)
    /\ status r = 400
    /\ body r = Text (stringify
                        (JObj [("success", JBool false);
                               ("error", JStr (message (engine_error NotIterable)))])).
Proof.
  intros Hauth Hm Hp Hjson Hparams Harr Hstr.
  unfold Full.handleFetch, KvD1.handleFetch. rewrite Hauth.
  rewrite (Full_routes_query now request Hm Hp), (KvD1_routes_query request Hm Hp).
  unfold db_query. run_async. rewrite Hjson. simpl. rewrite Hparams.
  destruct p as [|b|z|s|items|ms];
    try (exfalso; eapply Harr; reflexivity);
    try (exfalso; eapply Hstr; reflexivity);
    simpl; eexists; repeat split; reflexivity.
Qed.

(** X12.  [POST /api/db/init] runs the fixed schema script and reads no
    body: when the engine accepts it the answer is 200
    [{"success":true,"message":"Database initialized"}]; when the engine
    faults, the fault is thrown to the caller, not reshaped.  Either way
    only the database may have changed. *)
Theorem init_runs_the_schema (env : Env D) (now : Z) (request : Request) :
  verifyBasicAuth env request = None ->
  method request = "POST" ->
  pathname request = "/api/db/init" ->
  exists o db',
    DB_exec init_schema (DB env) = (o, db')
    /\ Full.handleFetch now request env
       = (match o with
          | Return _ =>
              Return (json_response
                        (JObj [("success", JBool true);
                               ("message", JStr "Database initialized")]) None)
          | Throw e => Throw e
          end, with_DB db' env)
    /\ KvD1.handleFetch request env = Full.handleFetch now request env.
Proof.
  intros Hauth Hm Hp.
  unfold Full.handleFetch, KvD1.handleFetch. rewrite Hauth.
  rewrite (Full_routes_init now request Hm Hp), (KvD1_routes_init request Hm Hp).
  unfold db_init. run_async.
  destruct (DB_exec init_schema (DB env)) as [[u|e] db'];
    eexists _, _; repeat split; reflexivity.
Qed.

(** X13.  What the upload route does without a [File].  When
    [request.formData()] throws, the error is thrown on.  When the [file]
    field is a text field, an empty text is answered 400
    [No file provided] like a missing field, and any other text makes the
    call of [file.stream()] throw.  In each case [env] is untouched. *)
Theorem uploads_without_a_file
  (env : Env D) (now : Z) (request : Request) :
  verifyBasicAuth env request = None ->
  method request = "POST" ->
  pathname request = "/api/files" ->
  (forall e, formData request = Throw e ->
             Full.handleFetch now request env = (Throw e, env))
  /\ (forall form s,
        formData request = Return form ->
        formData_get form "file" = Some (FormString s) ->
        Full.handleFetch now request env
        = (match s with
           | EmptyString => Return (new_Response (Text "No file provided") (Some 400) [])
           | String _ _ => Throw (engine_error NotCallable)
           end, env)).
Proof.
  intros Hauth Hm Hp.
  unfold Full.handleFetch. rewrite Hauth.
  rewrite (Full_routes_files_post now request Hm Hp).
  unfold Full.files_upload. run_async. split.
  - intros e ->. reflexivity.
  - intros form s -> Hfile. simpl. rewrite Hfile. destruct s; reflexivity.
Qed.

End Faults.

(** ** Generated keys *)

Lemma Number_toString_inj (a b : Z) : Number_toString a = Number_toString b -> a = b.
Proof.
  unfold Number_toString. intros He.
  apply DecimalZ.to_int_inj.
  assert (Hnn : forall z, Z.to_int z <> Decimal.Pos Decimal.Nil
                          /\ Z.to_int z <> Decimal.Neg Decimal.Nil).
  { intros [|q|q]; simpl; split; try discriminate;
      intros [= Hq]; exact (DecimalPos.Unsigned.to_uint_nonnil q Hq). }
  apply (f_equal NilZero.int_of_string) in He.
  rewrite !NilZero.isi in He by apply Hnn.
  now injection He.
Qed.

(** Digits followed by a dash parse in one way only. *)
Lemma digits_then_dash (d1 d2 : Decimal.uint) (x y : string) :
  NilEmpty.string_of_uint d1 +:+ String "-" x
  = NilEmpty.string_of_uint d2 +:+ String "-" y ->
  d1 = d2 /\ x = y.
Proof.
  revert d2. induction d1 as [|d1 IH|d1 IH|d1 IH|d1 IH|d1 IH|d1 IH|d1 IH|d1 IH|d1 IH|d1 IH];
    intros [|d2|d2|d2|d2|d2|d2|d2|d2|d2|d2]; simpl; intros He;
    try discriminate He;
    try (injection He as He; destruct (IH d2 He) as [-> ->]; split; reflexivity).
  injection He as <-. split; reflexivity.
Qed.

Lemma Number_toString_then_dash (a b : Z) (x y : string) :
  Number_toString a +:+ String "-" x = Number_toString b +:+ String "-" y ->
  a = b /\ x = y.
Proof.
  assert (Huint : forall q, NilZero.string_of_uint (Pos.to_uint q)
                            = NilEmpty.string_of_uint (Pos.to_uint q)).
  { intros q. pose proof (DecimalPos.Unsigned.to_uint_nonnil q) as Hq.
    destruct (Pos.to_uint q); [contradiction | reflexivity..]. }
  assert (Hdigit : forall q s t, NilEmpty.string_of_uint (Pos.to_uint q) +:+ s
                                 <> String "-" t).
  { intros q s t. pose proof (DecimalPos.Unsigned.to_uint_nonnil q) as Hq.
    destruct (Pos.to_uint q); [contradiction | simpl; discriminate..]. }
  assert (Hpos : forall q r, Pos.to_uint q = Pos.to_uint r -> q = r).
  { intros q r E. apply (DecimalPos.Unsigned.to_uint_inj _ _ E). }
  unfold Number_toString.
  destruct a as [|q|q], b as [|r|r]; cbn [Z.to_int NilZero.string_of_int];
    rewrite ?Huint; intros He.
  - injection He as <-. auto.
  - change (NilZero.string_of_uint Decimal.zero) with (NilEmpty.string_of_uint Decimal.zero) in He.
    apply digits_then_dash in He as [E ->].
    pose proof (f_equal Pos.of_uint E) as E'. rewrite DecimalPos.Unsigned.of_to in E'.
    discriminate E'.
  - discriminate He.
  - change (NilZero.string_of_uint Decimal.zero) with (NilEmpty.string_of_uint Decimal.zero) in He.
    apply digits_then_dash in He as [E ->].
    pose proof (f_equal Pos.of_uint E) as E'. rewrite DecimalPos.Unsigned.of_to in E'.
    discriminate E'.
  - apply digits_then_dash in He as [E ->]. apply Hpos in E as ->. auto.
  - exfalso. exact (Hdigit _ _ _ He).
  - discriminate He.
  - exfalso. symmetry in He. exact (Hdigit _ _ _ He).
  - injection He as He.
    apply digits_then_dash in He as [E ->]. apply Hpos in E as ->. auto.
Qed.

Section GeneratedKeys.

Context {D : Type} `{Runtime D}.

Lemma KvOnly_store_writes (now : Z) (request : Request) (env : Env D) (data : JSON) :
  json request = Return data ->
  KvOnly.store now request env =
  (Return (json_response
             (JObj [("success", JBool true);
                    ("key", JStr ("data:" +:+ Number_toString now))]) None),
   with_STORAGE (<["data:" +:+ Number_toString now := stringify data]> (STORAGE env)) env).
Proof. intros Hjson. unfold KvOnly.store. run_async. rewrite Hjson. reflexivity. Qed.

Lemma files_upload_writes (now : Z) (request : Request) (env : Env D)
  (form : list (string * FormDataEntryValue)) (f : File) :
  formData request = Return form ->
  formData_get form "file" = Some (FormFile f) ->
  Full.files_upload now request env =
  (Return (json_response
             (JObj [("success", JBool true);
                    ("key", JStr ("uploads/" +:+ Number_toString now +:+ "-" +:+ file_name f));
                    ("url", JStr ("/api/files/" +:+ "uploads/" +:+ Number_toString now
                                  +:+ "-" +:+ file_name f))]) None),
   with_FILES
     (<["uploads/" +:+ Number_toString now +:+ "-" +:+ file_name f :=
          {| r2_body := file_stream f;
             r2_contentType := Some (file_type f);
             httpEtag := R2_etag (file_stream f) |}]> (FILES env)) env).
Proof.
  intros Hform Hfile. unfold Full.files_upload. run_async.
  rewrite Hform. simpl. rewrite Hfile. reflexivity.
Qed.

(** X14.  The KV-only dispatcher round-trips any JSON body, [null]
    included: an authenticated [POST /api/store] at time [now] is
    acknowledged with the key [data:<now>], and [GET /api/store/data:<now>]
    then returns 200 with [JSON.stringify] of the body. *)
Theorem store_round_trip
  (env : Env D) (now now' : Z) (post get : Request) (data : JSON) :
  verifyBasicAuth env post = None ->
  verifyBasicAuth env get = None ->
  method post = "POST" ->
  pathname post = "/api/store" ->
  json post = Return data ->
  method get = "GET" ->
  pathname get = "/api/store/" +:+ "data:" +:+ Number_toString now ->
  exists ack env',
    KvOnly.handleFetch now post env = (Return ack, env')
    /\ status ack = 200
    /\ body ack = Text (stringify (JObj [("success", JBool true);
                                         ("key", JStr ("data:" +:+ Number_toString now))]))
    /\ exists r,
         KvOnly.handleFetch now' get env' = (Return r, env')
         /\ status r = 200
         /\ body r = Text (stringify data).
Proof.
  intros Hpost Hget Hm Hp Hjson Hm' Hp'.
  eexists _, _. split.
  { unfold KvOnly.handleFetch. rewrite Hpost, (KvOnly_routes_store_post now post Hm Hp).
    apply (KvOnly_store_writes now post env data Hjson). }
  split; [reflexivity|]. split; [reflexivity|].
  assert (Hpre : startsWith (pathname get) "/api/store/" = true).
  { rewrite Hp'. apply prefix_append. }
  unfold KvOnly.handleFetch.
  match goal with
  | |- context [verifyBasicAuth ?e get] =>
      rewrite (verifyBasicAuth_credentials env e get eq_refl eq_refl), Hget
  end.
  rewrite (KvOnly_routes_store_get now' get Hm' Hpre), kv_retrieve_reads.
  rewrite Hp', replace_prefix. cbn [STORAGE with_STORAGE]. rewrite lookup_insert_eq.
  destruct (stringify_nonempty data) as (c & s & ->).
  eexists. repeat split; reflexivity.
Qed.

(** X15.  The keys of the KV-only dispatcher are the timestamps: of two
    stores, the first body is still served under its key when the two
    happened at different times, and is replaced by the second body when
    [Date.now()] was the same for both. *)
Theorem stores_collide_only_at_the_same_time
  (env : Env D) (now1 now2 now3 : Z) (post1 post2 get : Request) (d1 d2 : JSON) :
  verifyBasicAuth env post1 = None ->
  verifyBasicAuth env post2 = None ->
  verifyBasicAuth env get = None ->
  method post1 = "POST" -> pathname post1 = "/api/store" -> json post1 = Return d1 ->
  method post2 = "POST" -> pathname post2 = "/api/store" -> json post2 = Return d2 ->
  method get = "GET" ->
  pathname get = "/api/store/" +:+ "data:" +:+ Number_toString now1 ->
  exists ack1 env1 ack2 env2 r,
    KvOnly.handleFetch now1 post1 env = (Return ack1, env1)
    /\ KvOnly.handleFetch now2 post2 env1 = (Return ack2, env2)
    /\ KvOnly.handleFetch now3 get env2 = (Return r, env2)
    /\ status r = 200
    /\ body r = Text (stringify (if now1 =? now2 then d2 else d1)).
Proof.
  intros Ha1 Ha2 Ha3 Hm1 Hp1 Hj1 Hm2 Hp2 Hj2 Hm3 Hp3.
  eexists _, _, _, _. eexists.
  split.
  { unfold KvOnly.handleFetch. rewrite Ha1, (KvOnly_routes_store_post now1 post1 Hm1 Hp1).
    apply (KvOnly_store_writes now1 post1 env d1 Hj1). }
  split.
  { unfold KvOnly.handleFetch.
    match goal with
    | |- context [verifyBasicAuth ?e post2] =>
        rewrite (verifyBasicAuth_credentials env e post2 eq_refl eq_refl), Ha2
    end.
    rewrite (KvOnly_routes_store_post now2 post2 Hm2 Hp2).
    apply (KvOnly_store_writes now2 post2 _ d2 Hj2). }
  assert (Hpre : startsWith (pathname get) "/api/store/" = true).
  { rewrite Hp3. apply prefix_append. }
  unfold KvOnly.handleFetch.
  match goal with
  | |- context [verifyBasicAuth ?e get] =>
      rewrite (verifyBasicAuth_credentials env e get eq_refl eq_refl), Ha3
  end.
  rewrite (KvOnly_routes_store_get now3 get Hm3 Hpre), kv_retrieve_reads.
  rewrite Hp3, replace_prefix. split; [reflexivity|].
  cbn [STORAGE with_STORAGE].
  destruct (Z.eqb_spec now1 now2) as [<- | Hne].
  - rewrite lookup_insert_eq.
    destruct (stringify_nonempty d2) as (c & s & ->). split; reflexivity.
  - rewrite lookup_insert_ne, lookup_insert_eq.
    + destruct (stringify_nonempty d1) as (c & s & ->). split; reflexivity.
    + intros [= E]. apply Number_toString_inj in E. congruence.
Qed.

End GeneratedKeys.

(** ** Limits, status codes and the default route *)

(** X17.  [checkLimits] draws the two lines exactly: a KV size passes up
    to 25 MiB and an R2 size up to 300 MiB, inclusive; a D1 size always
    passes; and every rejection is a 413 whose JSON body reports the limit
    and the size received. *)
Theorem checkLimits_draws_the_line (type : Full.LimitType) (size : Z) :
  (Full.checkLimits type size = None
   <-> match type with
       | Full.type_kv => size <= 26214400
       | Full.type_r2 => size <= 314572800
       | Full.type_d1 => True
       end)
  /\ forall r,
       Full.checkLimits type size = Some r ->
       status r = 413
       /\ exists what limit,
            body r = Text (stringify (JObj [("error", JStr what);
                                            ("limit", JNum limit);
                                            ("received", JNum size)]))
            /\ limit < size.
Proof.
  unfold Full.checkLimits.
  change (Full.maxValueSize (Full.kv Full.FREE_TIER_LIMITS)) with 26214400.
  change (Full.maxFileSize (Full.r2 Full.FREE_TIER_LIMITS)) with 314572800.
  destruct type; cbn [Full.is_kv Full.is_r2 andb].
  - destruct (Z.gtb_spec size 26214400); split.
    + split; [discriminate | lia].
    + intros r [= <-]. split; [reflexivity|]. eexists _, _. split; [reflexivity | lia].
    + split; [lia | reflexivity].
    + discriminate.
  - destruct (Z.gtb_spec size 314572800); split.
    + split; [discriminate | lia].
    + intros r [= <-]. split; [reflexivity|]. eexists _, _. split; [reflexivity | lia].
    + split; [lia | reflexivity].
    + discriminate.
  - split; [tauto | discriminate].
Qed.

Section StatusCodes.

Context {D : Type} `{Runtime D}.

Lemma KvOnly_routes_status (now : Z) (request : Request) (env env' : Env D) (r : Response) :
  KvOnly.routes now request env = (Return r, env') ->
  status r = 200 \/ plain_failure r 404 "Not found".
Proof.
  unfold KvOnly.routes.
  repeat match goal with
         | |- context [if ?c then _ else _] => destruct c
         end; intros Hrun.
  - injection Hrun as <- _. left; reflexivity.
  - left. revert Hrun. unfold KvOnly.store. run_async.
    intros Hrun. repeat case_match; unfold ret, throw in *; simplify_eq; reflexivity.
  - apply (kv_retrieve_status _ _ _ _ _ Hrun).
  - injection Hrun as <- _. left; reflexivity.
Qed.

(** X18.  The dispatchers answer with four status codes only: every
    response of any of the three is 200, 400, 401 or 404.  In particular
    none ever answers 413, the status [checkLimits] would give. *)
Theorem status_codes_in_use
  (env env' : Env D) (now : Z) (request : Request) (r : Response) :
  Full.handleFetch now request env = (Return r, env')
  \/ KvD1.handleFetch request env = (Return r, env')
  \/ KvOnly.handleFetch now request env = (Return r, env') ->
  status r = 200 \/ status r = 400 \/ status r = 401 \/ status r = 404.
Proof.
  unfold Full.handleFetch, KvD1.handleFetch, KvOnly.handleFetch.
  destruct (verifyBasicAuth env request) as [authError|] eqn:Hauth; intros Hrun.
  - assert (r = authError) as -> by (destruct Hrun as [Hrun | [Hrun | Hrun]]; congruence).
    destruct (verifyBasicAuth_rejections env request authError Hauth) as [-> | ->];
      right; right; left; reflexivity.
  - destruct Hrun as [Hrun | [Hrun | Hrun]].
    + destruct (Full_routes_status _ _ _ _ _ Hrun) as [?|[?|[?|[?|?]]]];
        unfold plain_failure, query_failure in *; tauto.
    + destruct (KvD1_routes_status _ _ _ _ Hrun) as [?|[?|?]];
        unfold plain_failure, query_failure in *; tauto.
    + destruct (KvOnly_routes_status _ _ _ _ _ Hrun) as [?|?];
        unfold plain_failure in *; tauto.
Qed.

Lemma prefix_trans (a b c : string) :
  String.prefix a b = true -> String.prefix b c = true -> String.prefix a c = true.
Proof.
  revert b c. induction a as [|x a IH]; intros b c Hab Hbc.
  - destruct c; reflexivity.
  - destruct b as [|y b]; [discriminate Hab|].
    destruct c as [|z c]; [discriminate Hbc|].
    simpl in *.
    destruct (ascii_dec x y) as [->|]; [|discriminate].
    destruct (ascii_dec y z) as [->|]; [|discriminate].
    apply (IH b c Hab Hbc).
Qed.

Lemma not_under_api (p q : string) :
  startsWith p "/api/" = false -> startsWith q "/api/" = true ->
  String.eqb p q = false /\ startsWith p q = false.
Proof.
  unfold startsWith. intros Hp Hq. split.
  - apply String.eqb_neq. intros ->. congruence.
  - destruct (String.prefix q p) eqn:E; [|reflexivity].
    rewrite (prefix_trans _ _ _ Hq E) in Hp. discriminate.
Qed.

(** X19.  What no route claims gets the documentation: an authenticated
    request whose path does not start with [/api/], or whose method is
    neither [GET] nor [POST] on a path other than [/api/status], is
    answered 200 with the endpoint listing of the dispatcher that serves
    it, and [env] is untouched. *)
Theorem unclaimed_requests_get_the_documentation
  (env : Env D) (now : Z) (request : Request) :
  verifyBasicAuth env request = None ->
  startsWith (pathname request) "/api/" = false
  \/ (method request <> "GET" /\ method request <> "POST"
      /\ pathname request <> "/api/status") ->
  Full.handleFetch now request env = (Return Full.documentation, env)
  /\ KvD1.handleFetch request env = (Return KvD1.documentation, env)
  /\ KvOnly.handleFetch now request env = (Return KvOnly.documentation, env)
  /\ status Full.documentation = 200
  /\ status KvD1.documentation = 200
  /\ status KvOnly.documentation = 200.
Proof.
  intros Hauth Hcase.
  unfold Full.handleFetch, KvD1.handleFetch, KvOnly.handleFetch. rewrite Hauth.
  unfold Full.routes, KvD1.routes, KvOnly.routes.
  destruct Hcase as [Hp | (Hg & Hpo & Hs)].
  - repeat match goal with
           | |- context [String.eqb (pathname request) ?q] =>
               rewrite (proj1 (not_under_api (pathname request) q Hp eq_refl))
           | |- context [startsWith (pathname request) ?q] =>
               rewrite (proj2 (not_under_api (pathname request) q Hp eq_refl))
           end.
    repeat split; reflexivity.
  - apply String.eqb_neq in Hg, Hpo, Hs.
    rewrite Hg, Hpo, Hs, !andb_false_r. repeat split; reflexivity.
Qed.

(** X20.  The KV + D1 dispatcher is the full one without its file routes:
    on every request whose path is neither [/api/status], nor [/api/files],
    nor under [/api/files/], the two leave the same [env] and give the same
    outcome, except that an unclaimed request gets each one's own
    documentation. *)
Theorem the_two_service_dispatcher_agrees
  (env : Env D) (now : Z) (request : Request) :
  pathname request <> "/api/status" ->
  pathname request <> "/api/files" ->
  startsWith (pathname request) "/api/files/" = false ->
  Full.handleFetch now request env = KvD1.handleFetch request env
  \/ (Full.handleFetch now request env = (Return Full.documentation, env)
      /\ KvD1.handleFetch request env = (Return KvD1.documentation, env)).
Proof.
  intros Hs Hf Hfs.
  apply String.eqb_neq in Hs, Hf.
  unfold Full.handleFetch, KvD1.handleFetch.
  destruct (verifyBasicAuth env request); [left; reflexivity|].
  unfold Full.routes, KvD1.routes. rewrite Hs, Hf, Hfs. cbn [andb].
  repeat match goal with
         | |- context [if ?c then _ else _] => destruct c; [left; reflexivity|]
         end.
  right. split; reflexivity.
Qed.

End StatusCodes.

(** ** The further properties at concrete requests *)

Lemma only_the_exact_credentials_pass_witness :
  verifyBasicAuth InMemory.locked_env
    (InMemory.bare "GET" "/" [("Authorization", "Basic " +:+ btoa "admin:secreT")])
  <> None.
Proof.
  intros Hpass.
  apply (only_the_exact_credentials_pass InMemory.locked_env
           (InMemory.bare "GET" "/" [("Authorization", "Basic " +:+ btoa "admin:secreT")])
           "secret" "admin:secreT" eq_refl ltac:(discriminate) eq_refl) in Hpass.
  discriminate Hpass.
Defined.

Lemma each_store_has_its_route_witness :
  FILES (snd (Full.handleFetch 0
                (InMemory.with_json "POST" "/api/kv" []
                   (JObj [("key", JStr "a"); ("value", JNum 1)]))
                InMemory.open_env))
  = FILES InMemory.open_env.
Proof.
  exact (proj1 (proj2 (each_store_has_its_route InMemory.open_env _ 0
                         (InMemory.with_json "POST" "/api/kv" []
                            (JObj [("key", JStr "a"); ("value", JNum 1)]))
                         _ eq_refl))
           ltac:(discriminate)).
Defined.

Lemma credentials_outlive_every_request_witness :
  SERVER_PASSWORD
    (snd (KvD1.handleFetch
            (InMemory.with_json "POST" "/api/kv"
               [("Authorization", "Basic YWRtaW46c2VjcmV0")]
               (JObj [("key", JStr "a"); ("value", JNum 1)]))
            InMemory.locked_env))
  = Some "secret".
Proof.
  exact (proj1 (proj2 (credentials_outlive_every_request InMemory.locked_env _ 0
                         (InMemory.with_json "POST" "/api/kv"
                            [("Authorization", "Basic YWRtaW46c2VjcmV0")]
                            (JObj [("key", JStr "a"); ("value", JNum 1)]))
                         _ (or_intror (or_introl eq_refl))))).
Defined.

Lemma reduced_dispatchers_keep_to_their_stores_witness :
  DB (snd (KvOnly.handleFetch 5
             (InMemory.with_json "POST" "/api/store" [] (JStr "x"))
             InMemory.open_env))
  = DB InMemory.open_env.
Proof.
  exact (proj2 (proj2 (reduced_dispatchers_keep_to_their_stores InMemory.open_env _ 5
                         (InMemory.with_json "POST" "/api/store" [] (JStr "x")) _)
                  eq_refl)).
Defined.

Lemma only_POST_writes_witness :
  snd (Full.handleFetch 0 (InMemory.bare "DELETE" "/api/kv/a" []) InMemory.open_env)
  = InMemory.open_env.
Proof.
  assert (Hm : method (InMemory.bare "DELETE" "/api/kv/a" []) <> "POST") by discriminate.
  exact (proj1 (only_POST_writes InMemory.open_env 0
                  (InMemory.bare "DELETE" "/api/kv/a" []) Hm)).
Defined.

Lemma kv_lookup_answers_witness :
  exists r,
    KvD1.handleFetch (InMemory.bare "GET" "/api/kv/a/b" []) InMemory.open_env
    = (Return r, InMemory.open_env)
    /\ status r = 404.
Proof.
  destruct (kv_lookup_answers InMemory.open_env 0
              (InMemory.bare "GET" "/api/kv/a/b" []) "a/b" eq_refl eq_refl eq_refl)
    as (r & _ & Hrun & Hshape).
  exists r. split; [exact Hrun | exact (proj1 Hshape)].
Defined.

Lemma file_lookup_answers_witness :
  exists r,
    Full.handleFetch 0 (InMemory.bare "GET" "/api/files/uploads/1-a.txt" [])
      InMemory.open_env = (Return r, InMemory.open_env)
    /\ body r = Text "File not found".
Proof.
  destruct (file_lookup_answers InMemory.open_env 0
              (InMemory.bare "GET" "/api/files/uploads/1-a.txt" []) "uploads/1-a.txt"
              eq_refl eq_refl eq_refl) as (r & Hrun & Hshape).
  exists r. split; [exact Hrun | exact (proj2 Hshape)].
Defined.

Lemma storing_a_key_leaves_other_answers_witness :
  exists ack env',
    Full.handleFetch 0
      (InMemory.with_json "POST" "/api/kv" [] (JObj [("key", JStr "a"); ("value", JNum 1)]))
      InMemory.open_env = (Return ack, env')
    /\ fst (Full.handleFetch 1 (InMemory.bare "GET" "/api/kv/b" []) env')
       = fst (Full.handleFetch 1 (InMemory.bare "GET" "/api/kv/b" []) InMemory.open_env).
Proof.
  destruct (storing_a_key_leaves_other_answers InMemory.open_env 0
              (InMemory.with_json "POST" "/api/kv" []
                 (JObj [("key", JStr "a"); ("value", JNum 1)]))
              [("key", JStr "a"); ("value", JNum 1)] "a" (JNum 1)
              eq_refl eq_refl eq_refl eq_refl eq_refl eq_refl)
    as (ack & env' & Hpost & Hlater).
  exists ack, env'. split; [exact Hpost|].
  apply Hlater; [reflexivity | discriminate].
Defined.

Lemma an_upload_leaves_other_answers_witness :
  exists ack env',
    Full.handleFetch 7
      (InMemory.with_form "POST" "/api/files" [] [("file", FormFile InMemory.hello_txt)])
      InMemory.open_env = (Return ack, env')
    /\ fst (Full.handleFetch 8 (InMemory.bare "GET" "/api/files/uploads/7-other.txt" []) env')
       = fst (Full.handleFetch 8 (InMemory.bare "GET" "/api/files/uploads/7-other.txt" [])
                InMemory.open_env).
Proof.
  destruct (an_upload_leaves_other_answers InMemory.open_env 7
              (InMemory.with_form "POST" "/api/files" []
                 [("file", FormFile InMemory.hello_txt)])
              [("file", FormFile InMemory.hello_txt)] InMemory.hello_txt
              eq_refl eq_refl eq_refl eq_refl eq_refl)
    as (ack & env' & Hpost & Hlater).
  exists ack, env'. split; [exact Hpost|].
  apply Hlater; [reflexivity | discriminate].
Defined.

Lemma unreadable_bodies_are_thrown_witness :
  Full.handleFetch 0 (InMemory.bare "POST" "/api/db/query" []) InMemory.open_env
  = (Throw {| message := "no body" |}, InMemory.open_env).
Proof.
  exact (proj1 (unreadable_bodies_are_thrown InMemory.open_env 0
                  (InMemory.bare "POST" "/api/db/query" []) {| message := "no body" |}
                  eq_refl eq_refl (or_intror eq_refl) (or_introl eq_refl))).
Defined.

Lemma params_that_cannot_be_spread_witness :
  exists r,
    Full.handleFetch 0
      (InMemory.with_json "POST" "/api/db/query" []
         (JObj [("sql", JStr "SELECT 1"); ("params", JNum 5)]))
      InMemory.open_env = (Return r, InMemory.open_env)
    /\ status r = 400.
Proof.
  destruct (params_that_cannot_be_spread InMemory.open_env 0
              (InMemory.with_json "POST" "/api/db/query" []
                 (JObj [("sql", JStr "SELECT 1"); ("params", JNum 5)]))
              [("sql", JStr "SELECT 1"); ("params", JNum 5)] (JNum 5)
              eq_refl eq_refl eq_refl eq_refl eq_refl
              ltac:(discriminate) ltac:(discriminate))
    as (r & Hrun & _ & Hstatus & _).
  exists r. auto.
Defined.

Lemma init_runs_the_schema_witness :
  KvD1.handleFetch (InMemory.bare "POST" "/api/db/init" []) InMemory.open_env
  = Full.handleFetch 0 (InMemory.bare "POST" "/api/db/init" []) InMemory.open_env.
Proof.
  destruct (init_runs_the_schema InMemory.open_env 0
              (InMemory.bare "POST" "/api/db/init" []) eq_refl eq_refl eq_refl)
    as (o & db' & _ & _ & Hsame).
  exact Hsame.
Defined.

Lemma uploads_without_a_file_witness :
  Full.handleFetch 0
    (InMemory.with_form "POST" "/api/files" [] [("file", FormString "hello")])
    InMemory.open_env
  = (Throw (engine_error NotCallable), InMemory.open_env).
Proof.
  exact (proj2 (uploads_without_a_file InMemory.open_env 0
                  (InMemory.with_form "POST" "/api/files" []
                     [("file", FormString "hello")])
                  eq_refl eq_refl eq_refl)
           [("file", FormString "hello")] "hello" eq_refl eq_refl).
Defined.

Lemma store_round_trip_witness :
  exists ack env' r,
    KvOnly.handleFetch 42 (InMemory.with_json "POST" "/api/store" [] JNull)
      InMemory.open_env = (Return ack, env')
    /\ KvOnly.handleFetch 43 (InMemory.bare "GET" "/api/store/data:42" []) env'
       = (Return r, env')
    /\ body r = Text "null".
Proof.
  destruct (store_round_trip InMemory.open_env 42 43
              (InMemory.with_json "POST" "/api/store" [] JNull)
              (InMemory.bare "GET" "/api/store/data:42" []) JNull
              eq_refl eq_refl eq_refl eq_refl eq_refl eq_refl eq_refl)
    as (ack & env' & Hpost & _ & _ & r & Hget & _ & Hbody).
  exists ack, env', r. auto.
Defined.

Lemma stores_collide_only_at_the_same_time_witness :
  exists ack1 env1 ack2 env2 r,
    KvOnly.handleFetch 42 (InMemory.with_json "POST" "/api/store" [] (JNum 1))
      InMemory.open_env = (Return ack1, env1)
    /\ KvOnly.handleFetch 42 (InMemory.with_json "POST" "/api/store" [] (JNum 2)) env1
       = (Return ack2, env2)
    /\ KvOnly.handleFetch 50 (InMemory.bare "GET" "/api/store/data:42" []) env2
       = (Return r, env2)
    /\ body r = Text "2".
Proof.
  destruct (stores_collide_only_at_the_same_time InMemory.open_env 42 42 50
              (InMemory.with_json "POST" "/api/store" [] (JNum 1))
              (InMemory.with_json "POST" "/api/store" [] (JNum 2))
              (InMemory.bare "GET" "/api/store/data:42" []) (JNum 1) (JNum 2)
              eq_refl eq_refl eq_refl eq_refl eq_refl eq_refl
              eq_refl eq_refl eq_refl eq_refl eq_refl)
    as (ack1 & env1 & ack2 & env2 & r & H1 & H2 & H3 & _ & Hbody).
  exists ack1, env1, ack2, env2, r. auto.
Defined.

Lemma checkLimits_draws_the_line_witness :
  exists r, Full.checkLimits Full.type_r2 314572801 = Some r /\ status r = 413.
Proof.
  eexists. split; [reflexivity|].
  exact (proj1 (proj2 (checkLimits_draws_the_line Full.type_r2 314572801) _ eq_refl)).
Defined.

Lemma status_codes_in_use_witness :
  status (new_Response (Text "Not found") (Some 404) []) = 200
  \/ status (new_Response (Text "Not found") (Some 404) []) = 400
  \/ status (new_Response (Text "Not found") (Some 404) []) = 401
  \/ status (new_Response (Text "Not found") (Some 404) []) = 404.
Proof.
  exact (status_codes_in_use InMemory.open_env InMemory.open_env 0
           (InMemory.bare "GET" "/api/store/data:1" [])
           (new_Response (Text "Not found") (Some 404) [])
           (or_intror (or_intror eq_refl))).
Defined.

Lemma unclaimed_requests_get_the_documentation_witness :
  Full.handleFetch 0 (InMemory.bare "PUT" "/api/kv/a" []) InMemory.open_env
  = (Return Full.documentation, InMemory.open_env).
Proof.
  assert (Hget : method (InMemory.bare "PUT" "/api/kv/a" []) <> "GET") by discriminate.
  assert (Hpost : method (InMemory.bare "PUT" "/api/kv/a" []) <> "POST") by discriminate.
  assert (Hpath : pathname (InMemory.bare "PUT" "/api/kv/a" []) <> "/api/status")
    by discriminate.
  pose proof (unclaimed_requests_get_the_documentation InMemory.open_env 0
                (InMemory.bare "PUT" "/api/kv/a" []) eq_refl
                (or_intror (conj Hget (conj Hpost Hpath)))) as Hall.
  exact (proj1 Hall).
Defined.

Lemma the_two_service_dispatcher_agrees_witness :
  Full.handleFetch 0 (InMemory.bare "POST" "/api/db/init" []) InMemory.open_env
  = KvD1.handleFetch (InMemory.bare "POST" "/api/db/init" []) InMemory.open_env
  \/ (Full.handleFetch 0 (InMemory.bare "POST" "/api/db/init" []) InMemory.open_env
      = (Return Full.documentation, InMemory.open_env)
      /\ KvD1.handleFetch (InMemory.bare "POST" "/api/db/init" []) InMemory.open_env
         = (Return KvD1.documentation, InMemory.open_env)).
Proof.
  exact (the_two_service_dispatcher_agrees InMemory.open_env 0
           (InMemory.bare "POST" "/api/db/init" [])
           ltac:(discriminate) ltac:(discriminate) eq_refl).
Defined.


(** ** What a URL can name *)

Lemma plain_append (a b : string) :
  URL.plain (a +:+ b) = URL.plain a && URL.plain b.
Proof.
  induction a as [|c a IH]; simpl; [reflexivity|].
  rewrite IH. apply andb_assoc.
Qed.

Lemma encode_code_point_plain (c : ascii) : URL.plain (URL.encode_code_point c) = true.
Proof. destruct c as [[] [] [] [] [] [] [] []]; reflexivity. Qed.

Lemma push_segment_plain (buffer : string) (last : bool) (path : list string) :
  URL.plain buffer = true ->
  List.Forall (fun s => URL.plain s = true) path ->
  List.Forall (fun s => URL.plain s = true) (URL.push_segment buffer last path).
Proof.
  intros Hb Hp. unfold URL.push_segment.
  assert (Htl : List.Forall (fun s => URL.plain s = true) (List.tl path)).
  { destruct Hp; [constructor | assumption]. }
  destruct (URL.is_double_dot buffer), (URL.is_single_dot buffer), last;
    repeat constructor; assumption.
Qed.

Lemma path_state_plain (input : string) :
  forall (buffer : string) (path : list string),
    URL.plain buffer = true ->
    List.Forall (fun s => URL.plain s = true) path ->
    List.Forall (fun s => URL.plain s = true) (URL.path_state input buffer path).
Proof.
  induction input as [|c rest IH]; intros buffer path Hb Hp; simpl.
  - apply push_segment_plain; assumption.
  - destruct (URL.ends_path c); [apply push_segment_plain; assumption|].
    destruct (URL.is_slash c).
    + apply IH; [reflexivity | apply push_segment_plain; assumption].
    + apply IH; [|assumption].
      rewrite plain_append, Hb, encode_code_point_plain. reflexivity.
Qed.

Lemma serialize_plain (segments : list string) :
  List.Forall (fun s => URL.plain s = true) segments ->
  URL.plain (URL.serialize segments) = true.
Proof.
  induction 1 as [|segment rest Hs _ IH]; [reflexivity|].
  cbn [URL.serialize]. rewrite !plain_append, Hs, IH. reflexivity.
Qed.

(** A pathname holds no character of the path percent-encode set: each
    one has been replaced by its percent-encoding. *)
Lemma pathname_plain (target : string) : URL.plain (URL.pathname target) = true.
Proof.
  unfold URL.pathname. apply serialize_plain, List.Forall_rev.
  apply path_state_plain; [reflexivity | constructor].
Qed.

(** So a path with such a character is the pathname of no URL. *)
Lemma paths_no_URL_has (p : string) :
  URL.plain p = false -> forall target, URL.pathname target <> p.
Proof.
  intros Hp target E. rewrite <- E, pathname_plain in Hp. discriminate.
Qed.

Section UnreachableKeys.

Context {D : Type} `{Runtime D}.

(** The key read by a retrieval route is itself free of such characters:
    a key with a space, a quote, [#], [<], [>], [?], [^], a backquote, a
    brace, a control character or a character above U+007E is read by no
    [GET], whatever URL it is sent to. *)
Lemma keys_no_GET_reads (prefix K : string) (target : string) :
  URL.plain K = false ->
  startsWith (URL.pathname target) prefix = true ->
  replace prefix EmptyString (URL.pathname target) <> K.
Proof.
  intros HK Hpre E.
  pose proof (startsWith_split _ _ Hpre) as Hsplit.
  pose proof (pathname_plain target) as Hplain.
  rewrite Hsplit, plain_append in Hplain.
  rewrite Hsplit, replace_prefix in E.
  apply andb_prop in Hplain as [_ Htail].
  rewrite E in Htail. congruence.
Qed.

End UnreachableKeys.

(** C2, on the code.  The key [a b] is stored by [POST /api/kv] and
    acknowledged, and then no [GET] finds it: the URL [/api/kv/a b] has the
    pathname [/api/kv/a%20b], whose tail is looked up as it is and answered
    404 [Not found] by the full and by the KV + D1 dispatcher, and no URL at
    all has the pathname [/api/kv/a b]. *)
Theorem key_with_a_space_is_never_found :
  exists ack env',
    Full.handleFetch 0
      (InMemory.with_json "POST" (URL.pathname "/api/kv") []
         (JObj [("key", JStr "a b"); ("value", JArr [JNum 1; JStr "hi"])]))
      InMemory.open_env = (Return ack, env')
    /\ status ack = 200
    /\ body ack = Text (stringify (JObj [("success", JBool true); ("key", JStr "a b")]))
    /\ STORAGE env' !! "a b" = Some (stringify (JArr [JNum 1; JStr "hi"]))
    /\ URL.pathname "/api/kv/a b" = "/api/kv/a%20b"
    /\ Full.handleFetch 1 (InMemory.bare "GET" (URL.pathname "/api/kv/a b") []) env'
       = (Return (new_Response (Text "Not found") (Some 404) []), env')
    /\ KvD1.handleFetch (InMemory.bare "GET" (URL.pathname "/api/kv/a b") []) env'
       = (Return (new_Response (Text "Not found") (Some 404) []), env')
    /\ (forall target, URL.pathname target <> "/api/kv/a b").
Proof.
  exists (json_response (JObj [("success", JBool true); ("key", JStr "a b")]) None),
         (with_STORAGE (<["a b" := stringify (JArr [JNum 1; JStr "hi"])]> ∅)
            InMemory.open_env).
  repeat (split; [vm_compute; reflexivity|]).
  apply paths_no_URL_has. reflexivity.
Qed.

(** C9, on the code.  A file named [my file.txt] is uploaded and
    acknowledged with its key and with the retrieval path
    [/api/files/uploads/<now>-my file.txt]; the object is in the bucket,
    yet a [GET] of that very path has the pathname
    [/api/files/uploads/<now>-my%20file.txt] and is answered 404
    [File not found], and no URL at all has the key as its pathname tail. *)
Theorem file_name_with_a_space_is_never_served :
  exists ack env',
    Full.handleFetch 1700000000000
      (InMemory.with_form "POST" (URL.pathname "/api/files") []
         [("file", FormFile {| file_name := "my file.txt";
                               file_type := "text/plain";
                               file_stream := [Byte.x68; Byte.x69] |})])
      InMemory.open_env = (Return ack, env')
    /\ status ack = 200
    /\ body ack
       = Text (stringify
                 (JObj [("success", JBool true);
                        ("key", JStr "uploads/1700000000000-my file.txt");
                        ("url", JStr "/api/files/uploads/1700000000000-my file.txt")]))
    /\ r2_body <$> (FILES env' !! "uploads/1700000000000-my file.txt")
       = Some [Byte.x68; Byte.x69]
    /\ URL.pathname "/api/files/uploads/1700000000000-my file.txt"
       = "/api/files/uploads/1700000000000-my%20file.txt"
    /\ Full.handleFetch 1700000000001
         (InMemory.bare "GET"
            (URL.pathname "/api/files/uploads/1700000000000-my file.txt") []) env'
       = (Return (new_Response (Text "File not found") (Some 404) []), env')
    /\ (forall target,
          URL.pathname target <> "/api/files/uploads/1700000000000-my file.txt").
Proof.
  exists (json_response
            (JObj [("success", JBool true);
                   ("key", JStr "uploads/1700000000000-my file.txt");
                   ("url", JStr "/api/files/uploads/1700000000000-my file.txt")]) None),
         (with_FILES
            (<["uploads/1700000000000-my file.txt" :=
                 {| r2_body := [Byte.x68; Byte.x69];
                    r2_contentType := Some "text/plain";
                    httpEtag := R2_etag [Byte.x68; Byte.x69] |}]> ∅)
            InMemory.open_env).
  repeat (split; [vm_compute; reflexivity|]).
  apply paths_no_URL_has. reflexivity.
Qed.

(** ** Credentials as code units *)

Section CodeUnits.

Context {D : Type} `{Runtime D}.

Lemma latin1_bound (s : string) : forallb (fun c => (c <=? 255)%N) (JS16.latin1 s) = true.
Proof.
  induction s as [|c s IH]; [reflexivity|].
  change (((N_of_ascii c <=? 255)%N
           && forallb (fun c => (c <=? 255)%N) (JS16.latin1 s))%bool = true).
  rewrite IH, andb_true_r.
  apply N.leb_le. pose proof (N_ascii_bounded c). lia.
Qed.

Lemma latin1_append (a b : string) :
  JS16.latin1 (a +:+ b) = List.app (JS16.latin1 a) (JS16.latin1 b).
Proof.
  induction a as [|c a IH]; [reflexivity|].
  change (N_of_ascii c :: JS16.latin1 (a +:+ b)
          = N_of_ascii c :: List.app (JS16.latin1 a) (JS16.latin1 b)).
  now rewrite IH.
Qed.

(** On a Latin-1 string the two [btoa] agree. *)
Lemma btoa_latin1 (s : string) : JS16.btoa (JS16.latin1 s) = Return (Base64.btoa s).
Proof. unfold JS16.btoa. rewrite latin1_bound. reflexivity. Qed.

(** One code unit above 255 and [btoa] throws. *)
Lemma btoa_throws (data : list N) :
  (exists c, In c data /\ (255 < c)%N) ->
  JS16.btoa data = Throw (engine_error InvalidCharacter).
Proof.
  intros (c & Hin & Hc). unfold JS16.btoa.
  destruct (forallb _ data) eqn:E; [|reflexivity].
  rewrite forallb_forall in E. apply E, N.leb_le in Hin. lia.
Qed.

(** For Latin-1 credentials the authenticator over code units is the one
    over [env]. *)
Lemma verifyBasicAuth_latin1 (env : Env D) (request : Request) :
  JS16.verifyBasicAuth (option_map JS16.latin1 (SERVER_USERNAME env))
                       (option_map JS16.latin1 (SERVER_PASSWORD env)) request
  = Return (verifyBasicAuth env request).
Proof.
  unfold JS16.verifyBasicAuth, verifyBasicAuth.
  assert (Hf : JS16.falsy (option_map JS16.latin1 (SERVER_PASSWORD env))
               = falsy (SERVER_PASSWORD env)).
  { destruct (SERVER_PASSWORD env) as [[|c p]|]; reflexivity. }
  assert (Hi : forall o, JS16.interpolate (option_map JS16.latin1 o)
                         = JS16.latin1 (interpolate o)).
  { intros [x|]; reflexivity. }
  rewrite Hf. destruct (falsy (SERVER_PASSWORD env)); [reflexivity|].
  destruct (Headers.get (headers request) "Authorization") as [a|]; [|reflexivity].
  destruct (negb (startsWith a "Basic ")); [reflexivity|].
  rewrite !Hi, <- !latin1_append, btoa_latin1.
  destruct (negb (String.eqb _ _)); reflexivity.
Qed.

(** With a code unit above 255 in the credentials, every request that
    carries a [Basic] header throws, in each dispatcher, before any route
    is tried. *)
Lemma credentials_above_latin1_throw
  (username password : option (list N)) (request : Request) (a : string) :
  JS16.falsy password = false ->
  Headers.get (headers request) "Authorization" = Some a ->
  startsWith a "Basic " = true ->
  (exists c, In c (List.app (JS16.interpolate username)
                     (List.app (JS16.latin1 ":") (JS16.interpolate password)))
             /\ (255 < c)%N) ->
  JS16.verifyBasicAuth username password request = Throw (engine_error InvalidCharacter)
  /\ forall routes env,
       JS16.handleFetch username password routes request env
       = (Throw (engine_error InvalidCharacter), env).
Proof.
  intros Hf Hhdr Hbasic Hc.
  assert (Hv : JS16.verifyBasicAuth username password request
               = Throw (engine_error InvalidCharacter)).
  { unfold JS16.verifyBasicAuth. rewrite Hf, Hhdr, Hbasic. cbn [negb].
    rewrite (btoa_throws _ Hc). reflexivity. }
  split; [exact Hv|].
  intros routes env. unfold JS16.handleFetch. rewrite Hv. reflexivity.
Qed.

End CodeUnits.

(** C1, on the code.  With the password [pw€] (code units 112, 119, 8364)
    and the header a client sends for [admin:pw€], the authenticator does
    not pass the request and does not answer 401: [btoa] throws, outside
    any [try], and each dispatcher throws with it. *)
Theorem password_above_latin1_throws :
  JS16.verifyBasicAuth (D := list string)
    (Some (JS16.latin1 "admin")) (Some [112; 119; 8364]%N)
    (InMemory.bare "GET" "/api/status" [("Authorization", "Basic YWRtaW46cHfigqw=")])
  = Throw (engine_error InvalidCharacter)
  /\ JS16.handleFetch (Some (JS16.latin1 "admin")) (Some [112; 119; 8364]%N)
       (Full.routes 0)
       (InMemory.bare "GET" "/api/status" [("Authorization", "Basic YWRtaW46cHfigqw=")])
       InMemory.open_env
     = (Throw (engine_error InvalidCharacter), InMemory.open_env)
  /\ JS16.handleFetch (Some (JS16.latin1 "admin")) (Some [112; 119; 8364]%N)
       KvD1.routes
       (InMemory.bare "GET" "/api/status" [("Authorization", "Basic YWRtaW46cHfigqw=")])
       InMemory.open_env
     = (Throw (engine_error InvalidCharacter), InMemory.open_env)
  /\ JS16.handleFetch (Some (JS16.latin1 "admin")) (Some [112; 119; 8364]%N)
       (KvOnly.routes 0)
       (InMemory.bare "GET" "/api/status" [("Authorization", "Basic YWRtaW46cHfigqw=")])
       InMemory.open_env
     = (Throw (engine_error InvalidCharacter), InMemory.open_env).
Proof. repeat split; reflexivity. Qed.

(** ** Handled failures *)

(** The text of a value never starts with a capital letter. *)
Lemma stringify_not_capital (v : JSON) (c : ascii) (s : string) :
  In c ["U"; "N"; "F"]%char -> stringify v <> String c s.
Proof.
  intros [<- | [<- | [<- | []]]];
    (destruct v as [|[|]|z|t|items|members]; simpl; try discriminate;
     unfold Number_toString;
     destruct z as [|q|q]; simpl; try discriminate;
     destruct (Pos.to_uint q); simpl; discriminate).
Qed.

(** A body that starts with a capital letter is not a JSON text. *)
Lemma capital_body_is_not_JSON (r : Response) (c : ascii) (s : string) :
  body r = Text (String c s) -> In c ["U"; "N"; "F"]%char -> ~ JSON_body r.
Proof.
  intros Hbody Hc [v Hv]. rewrite Hbody in Hv. injection Hv as Hv.
  symmetry in Hv. exact (stringify_not_capital v c s Hc Hv).
Qed.

Section HandledFailures.

Context {D : Type} `{Runtime D}.

(** C8, amended.  Each handled failure has its own answer, in the full
    dispatcher and (for the routes it has) in the KV + D1 dispatcher.
    - Unauthorized: whatever the route, the answer is the authenticator's:
      status 401, the text [Unauthorized], content type of plain text,
      [env] untouched; the body is not a JSON text.
    For a request the authenticator passes ([K] is the rest of the
    pathname as the handler reads it, still percent-encoded):
    - missing key: [GET] with pathname [/api/kv/K], nothing stored under
      [K]: status 404, the text [Not found];
    - missing object: [GET] with pathname [/api/files/K], no object under
      [K]: status 404, the text [File not found];
    - missing upload: [POST /api/files] whose form has no [file] field:
      status 400, the text [No file provided];
    - SQL fault: [POST /api/db/query] on which the engine throws [e]:
      status 400, content type JSON, the body
      [{"success":false,"error":<message of e>}].
    The three texts are plain text and not JSON texts; only the SQL fault
    is answered in JSON.  Conversely, every response with a status other
    than 200 is one of these five. *)
Theorem handled_failures_name_the_condition
  (env : Env D) (now : Z) (request : Request) :
  (forall authError,
      verifyBasicAuth env request = Some authError ->
      Full.handleFetch now request env = (Return authError, env)
      /\ KvD1.handleFetch request env = (Return authError, env)
      /\ plain_failure authError 401 "Unauthorized"
      /\ Headers.get (response_headers authError) "Content-Type"
         = Some "text/plain;charset=UTF-8"
      /\ ~ JSON_body authError)
  /\ (verifyBasicAuth env request = None ->
      (forall K,
          method request = "GET" ->
          pathname request = "/api/kv/" +:+ K ->
          STORAGE env !! K = None ->
          Full.handleFetch now request env
          = (Return (new_Response (Text "Not found") (Some 404) []), env)
          /\ KvD1.handleFetch request env
             = (Return (new_Response (Text "Not found") (Some 404) []), env))
      /\ (forall K,
          method request = "GET" ->
          pathname request = "/api/files/" +:+ K ->
          FILES env !! K = None ->
          Full.handleFetch now request env
          = (Return (new_Response (Text "File not found") (Some 404) []), env))
      /\ (forall form,
          method request = "POST" ->
          pathname request = "/api/files" ->
          formData request = Return form ->
          formData_get form "file" = None ->
          Full.handleFetch now request env
          = (Return (new_Response (Text "No file provided") (Some 400) []), env))
      /\ (forall members args e db',
          method request = "POST" ->
          pathname request = "/api/db/query" ->
          json request = Return (JObj members) ->
          lookup_member "params" members = Some (JArr args)
          \/ (lookup_member "params" members = None /\ args = []) ->
          DB_all (lookup_member "sql" members) args (DB env) = (Throw e, db') ->
          Full.handleFetch now request env
          = (Return (json_response
                       (JObj [("success", JBool false); ("error", JStr (message e))])
                       (Some 400)),
             with_DB db' env)
          /\ KvD1.handleFetch request env
             = (Return (json_response
                          (JObj [("success", JBool false); ("error", JStr (message e))])
                          (Some 400)),
                with_DB db' env)))
  /\ (forall st text,
      In (st, text) [(404, "Not found"); (404, "File not found"); (400, "No file provided")] ->
      plain_failure (new_Response (Text text) (Some st) []) st text
      /\ Headers.get (response_headers (new_Response (Text text) (Some st) [])) "Content-Type"
         = Some "text/plain;charset=UTF-8"
      /\ ~ JSON_body (new_Response (Text text) (Some st) []))
  /\ (forall msg,
      query_failure (json_response
                       (JObj [("success", JBool false); ("error", JStr msg)]) (Some 400))
      /\ JSON_body (json_response
                      (JObj [("success", JBool false); ("error", JStr msg)]) (Some 400)))
  /\ (forall r env',
      Full.handleFetch now request env = (Return r, env')
      \/ KvD1.handleFetch request env = (Return r, env') ->
      status r <> 200 ->
      plain_failure r 401 "Unauthorized"
      \/ plain_failure r 404 "Not found"
      \/ plain_failure r 404 "File not found"
      \/ plain_failure r 400 "No file provided"
      \/ query_failure r).
Proof.
  split; [|split; [|split; [|split]]].
  - intros authError Hauth.
    unfold Full.handleFetch, KvD1.handleFetch. rewrite Hauth.
    split; [reflexivity|]. split; [reflexivity|].
    destruct (verifyBasicAuth_rejections env request authError Hauth) as [-> | ->];
      (split; [split; reflexivity|]; split; [reflexivity|]);
      apply (capital_body_is_not_JSON _ "U" "nauthorized"); simpl; auto.
  - intros Hauth.
    unfold Full.handleFetch, KvD1.handleFetch. rewrite Hauth.
    split; [|split; [|split]].
    + intros K Hm Hp Hnone.
      assert (Hpre : startsWith (pathname request) "/api/kv/" = true).
      { rewrite Hp. apply prefix_append. }
      rewrite (Full_routes_kv_get now request Hm Hpre),
              (KvD1_routes_kv_get request Hm Hpre), kv_retrieve_reads.
      rewrite Hp, replace_prefix, Hnone. split; reflexivity.
    + intros K Hm Hp Hnone.
      assert (Hpre : startsWith (pathname request) "/api/files/" = true).
      { rewrite Hp. apply prefix_append. }
      rewrite (Full_routes_files_get now request Hm Hpre), files_download_reads.
      rewrite Hp, replace_prefix, Hnone. reflexivity.
    + intros form Hm Hp Hform Hfile.
      rewrite (Full_routes_files_post now request Hm Hp).
      unfold Full.files_upload. run_async. rewrite Hform. simpl. rewrite Hfile.
      reflexivity.
    + intros members args e db' Hm Hp Hjson Hparams Hfault.
      rewrite (Full_routes_query now request Hm Hp), (KvD1_routes_query request Hm Hp).
      assert (Hq : db_query request env
                   = (Return (json_response
                                (JObj [("success", JBool false);
                                       ("error", JStr (message e))]) (Some 400)),
                      with_DB db' env)).
      { unfold db_query. run_async. rewrite Hjson. simpl.
        destruct Hparams as [-> | [-> ->]]; simpl; rewrite Hfault; reflexivity. }
      rewrite Hq. split; reflexivity.
  - intros st text [[= <- <-] | [[= <- <-] | [[= <- <-] | []]]];
      (split; [split; reflexivity|]; split; [reflexivity|]).
    + apply (capital_body_is_not_JSON _ "N" "ot found"); simpl; auto.
    + apply (capital_body_is_not_JSON _ "F" "ile not found"); simpl; auto.
    + apply (capital_body_is_not_JSON _ "N" "o file provided"); simpl; auto.
  - intros msg. split.
    + split; [reflexivity|]. split; [reflexivity|]. exists msg. reflexivity.
    + eexists. reflexivity.
  - intros r env' Hrun Hfail.
    exact (failure_responses_have_known_shapes env env' now request r Hrun Hfail).
Qed.

End HandledFailures.

(** ** Upload keys *)

Section UploadKeys.

Context {D : Type} `{Runtime D}.

(** X16.  Upload keys tell uploads apart by time and by name.  After two
    uploads, the keys [uploads/<now1>-<name1>] and [uploads/<now2>-<name2>]
    are equal exactly when both [Date.now()] and the file names were equal;
    the bucket then holds, under the first key, the first file, unless the
    keys are equal, in which case the second file has replaced it; and
    under the second key, the second file.  When the URL parser leaves the
    path [/api/files/<first key>] as it is, a [GET] of it is answered 200
    with what the bucket holds under that key. *)
Theorem uploads_collide_only_on_time_and_name
  (env : Env D) (now1 now2 : Z) (post1 post2 : Request)
  (form1 form2 : list (string * FormDataEntryValue)) (f1 f2 : File) :
  verifyBasicAuth env post1 = None ->
  verifyBasicAuth env post2 = None ->
  method post1 = "POST" -> pathname post1 = "/api/files" ->
  formData post1 = Return form1 -> formData_get form1 "file" = Some (FormFile f1) ->
  method post2 = "POST" -> pathname post2 = "/api/files" ->
  formData post2 = Return form2 -> formData_get form2 "file" = Some (FormFile f2) ->
  let key1 := "uploads/" +:+ Number_toString now1 +:+ "-" +:+ file_name f1 in
  let key2 := "uploads/" +:+ Number_toString now2 +:+ "-" +:+ file_name f2 in
  let kept := if (now1 =? now2) && String.eqb (file_name f1) (file_name f2)
              then f2 else f1 in
  exists ack1 env1 ack2 env2,
    Full.handleFetch now1 post1 env = (Return ack1, env1)
    /\ Full.handleFetch now2 post2 env1 = (Return ack2, env2)
    /\ (key1 = key2 <-> now1 = now2 /\ file_name f1 = file_name f2)
    /\ r2_body <$> (FILES env2 !! key1) = Some (file_stream kept)
    /\ r2_body <$> (FILES env2 !! key2) = Some (file_stream f2)
    /\ (forall now3 get,
           verifyBasicAuth env get = None ->
           method get = "GET" ->
           URL.pathname ("/api/files/" +:+ key1) = "/api/files/" +:+ key1 ->
           pathname get = URL.pathname ("/api/files/" +:+ key1) ->
           exists r,
             Full.handleFetch now3 get env2 = (Return r, env2)
             /\ status r = 200
             /\ body r = Stream (file_stream kept)).
Proof.
  intros Ha1 Ha2 Hm1 Hp1 Hf1 Hg1 Hm2 Hp2 Hf2 Hg2 key1 key2 kept.
  assert (Hkeys : key1 = key2 <-> now1 = now2 /\ file_name f1 = file_name f2).
  { subst key1 key2. split.
    - intros [= E]. exact (Number_toString_then_dash _ _ _ _ E).
    - intros [-> ->]. reflexivity. }
  eexists _, _, _, _.
  split.
  { unfold Full.handleFetch. rewrite Ha1, (Full_routes_files_post now1 post1 Hm1 Hp1).
    apply (files_upload_writes now1 post1 env form1 f1 Hf1 Hg1). }
  split.
  { unfold Full.handleFetch.
    match goal with
    | |- context [verifyBasicAuth ?e post2] =>
        rewrite (verifyBasicAuth_credentials env e post2 eq_refl eq_refl), Ha2
    end.
    rewrite (Full_routes_files_post now2 post2 Hm2 Hp2).
    apply (files_upload_writes now2 post2 _ form2 f2 Hf2 Hg2). }
  split; [exact Hkeys|].
  cbn [FILES with_FILES]. fold key1 key2.
  assert (Hheld : exists o,
             <[key2 := {| r2_body := file_stream f2;
                          r2_contentType := Some (file_type f2);
                          httpEtag := R2_etag (file_stream f2) |}]>
               (<[key1 := {| r2_body := file_stream f1;
                             r2_contentType := Some (file_type f1);
                             httpEtag := R2_etag (file_stream f1) |}]> (FILES env))
             !! key1 = Some o
             /\ r2_body o = file_stream kept).
  { subst kept.
    destruct (Z.eqb_spec now1 now2) as [En | Hne];
      [destruct (String.eqb_spec (file_name f1) (file_name f2)) as [Ef | Hnn]|]; cbn [andb].
    - rewrite (proj2 Hkeys (conj En Ef)), lookup_insert_eq. eexists; split; reflexivity.
    - rewrite lookup_insert_ne, lookup_insert_eq; [eexists; split; reflexivity|].
      intros E. symmetry in E. apply Hkeys in E as [_ E]. contradiction.
    - rewrite lookup_insert_ne, lookup_insert_eq; [eexists; split; reflexivity|].
      intros E. symmetry in E. apply Hkeys in E as [E _]. contradiction. }
  destruct Hheld as (o & Ho & Hbody).
  split; [rewrite Ho; simpl; rewrite Hbody; reflexivity|].
  split; [rewrite lookup_insert_eq; reflexivity|].
  intros now3 get Ha3 Hm3 Hurl Hp3. rewrite Hurl in Hp3.
  assert (Hpre : startsWith (pathname get) "/api/files/" = true).
  { rewrite Hp3. apply prefix_append. }
  unfold Full.handleFetch.
  match goal with
  | |- context [verifyBasicAuth ?e get] =>
      rewrite (verifyBasicAuth_credentials env e get eq_refl eq_refl), Ha3
  end.
  rewrite (Full_routes_files_get now3 get Hm3 Hpre), files_download_reads.
  rewrite Hp3, replace_prefix. cbn [FILES with_FILES]. fold key1 key2. rewrite Ho.
  eexists. split; [reflexivity|]. split; [reflexivity|].
  simpl. rewrite Hbody. reflexivity.
Qed.

End UploadKeys.

(** ** Failures and upload keys at concrete requests *)

Lemma handled_failures_name_the_condition_witness :
  Full.handleFetch 0 (InMemory.bare "GET" "/api/status" []) InMemory.locked_env
  = (Return unauthorized_challenge, InMemory.locked_env)
  /\ Full.handleFetch 0 (InMemory.bare "GET" "/api/kv/missing" []) InMemory.open_env
     = (Return (new_Response (Text "Not found") (Some 404) []), InMemory.open_env)
  /\ Full.handleFetch 0 (InMemory.bare "GET" "/api/files/missing" []) InMemory.open_env
     = (Return (new_Response (Text "File not found") (Some 404) []), InMemory.open_env)
  /\ Full.handleFetch 0
       (InMemory.with_form "POST" "/api/files" [] [("note", FormString "hello")])
       InMemory.open_env
     = (Return (new_Response (Text "No file provided") (Some 400) []), InMemory.open_env)
  /\ Full.handleFetch 0
       (InMemory.with_json "POST" "/api/db/query" [] (JObj [("sql", JStr "SELEC 1")]))
       InMemory.open_env
     = (Return (json_response
                  (JObj [("success", JBool false);
                         ("error", JStr "D1_ERROR: syntax error")]) (Some 400)),
        InMemory.open_env).
Proof.
  split.
  { pose proof (handled_failures_name_the_condition InMemory.locked_env 0
                  (InMemory.bare "GET" "/api/status" [])) as (Hauth & _).
    exact (proj1 (Hauth unauthorized_challenge eq_refl)). }
  split.
  { pose proof (handled_failures_name_the_condition InMemory.open_env 0
                  (InMemory.bare "GET" "/api/kv/missing" [])) as (_ & Hroutes & _).
    destruct (Hroutes eq_refl) as (Hkey & _).
    exact (proj1 (Hkey "missing" eq_refl eq_refl eq_refl)). }
  split.
  { pose proof (handled_failures_name_the_condition InMemory.open_env 0
                  (InMemory.bare "GET" "/api/files/missing" [])) as (_ & Hroutes & _).
    destruct (Hroutes eq_refl) as (_ & Hobject & _).
    exact (Hobject "missing" eq_refl eq_refl eq_refl). }
  split.
  { pose proof (handled_failures_name_the_condition InMemory.open_env 0
                  (InMemory.with_form "POST" "/api/files" []
                     [("note", FormString "hello")])) as (_ & Hroutes & _).
    destruct (Hroutes eq_refl) as (_ & _ & Hupload & _).
    exact (Hupload [("note", FormString "hello")] eq_refl eq_refl eq_refl eq_refl). }
  pose proof (handled_failures_name_the_condition InMemory.open_env 0
                (InMemory.with_json "POST" "/api/db/query" []
                   (JObj [("sql", JStr "SELEC 1")]))) as (_ & Hroutes & _).
  destruct (Hroutes eq_refl) as (_ & _ & _ & Hquery).
  exact (proj1 (Hquery [("sql", JStr "SELEC 1")] []
                  {| message := "D1_ERROR: syntax error" |} []
                  eq_refl eq_refl eq_refl (or_intror (conj eq_refl eq_refl)) eq_refl)).
Defined.

Lemma uploads_collide_only_on_time_and_name_witness :
  exists ack1 env1 ack2 env2 r,
    Full.handleFetch 7
      (InMemory.with_form "POST" "/api/files" [] [("file", FormFile InMemory.hello_txt)])
      InMemory.open_env = (Return ack1, env1)
    /\ Full.handleFetch 8
         (InMemory.with_form "POST" "/api/files" []
            [("file", FormFile {| file_name := "hello.txt"; file_type := "text/plain";
                                  file_stream := [Byte.x6f] |})])
         env1 = (Return ack2, env2)
    /\ r2_body <$> (FILES env2 !! "uploads/7-hello.txt") = Some [Byte.x68; Byte.x69]
    /\ r2_body <$> (FILES env2 !! "uploads/8-hello.txt") = Some [Byte.x6f]
    /\ Full.handleFetch 9
         (InMemory.bare "GET" (URL.pathname "/api/files/uploads/7-hello.txt") []) env2
       = (Return r, env2)
    /\ body r = Stream [Byte.x68; Byte.x69].
Proof.
  destruct (uploads_collide_only_on_time_and_name InMemory.open_env 7 8
              (InMemory.with_form "POST" "/api/files" []
                 [("file", FormFile InMemory.hello_txt)])
              (InMemory.with_form "POST" "/api/files" []
                 [("file", FormFile {| file_name := "hello.txt"; file_type := "text/plain";
                                       file_stream := [Byte.x6f] |})])
              [("file", FormFile InMemory.hello_txt)]
              [("file", FormFile {| file_name := "hello.txt"; file_type := "text/plain";
                                    file_stream := [Byte.x6f] |})]
              InMemory.hello_txt
              {| file_name := "hello.txt"; file_type := "text/plain";
                 file_stream := [Byte.x6f] |}
              eq_refl eq_refl eq_refl eq_refl eq_refl eq_refl
              eq_refl eq_refl eq_refl eq_refl)
    as (ack1 & env1 & ack2 & env2 & H1 & H2 & _ & Hfirst & Hsecond & Hget).
  destruct (Hget 9 (InMemory.bare "GET" (URL.pathname "/api/files/uploads/7-hello.txt") [])
              eq_refl eq_refl eq_refl eq_refl) as (r & H3 & _ & Hbody).
  exists ack1, env1, ack2, env2, r. auto 7.
Defined.

(** ** The URL parser at work *)

Example pathname_encodes_a_space : URL.pathname "/api/kv/a b" = "/api/kv/a%20b".
Proof. reflexivity. Qed.

Example pathname_drops_query_and_fragment : URL.pathname "/api/kv/x?y=1#z" = "/api/kv/x".
Proof. reflexivity. Qed.

Example pathname_resolves_dot_segments :
  URL.pathname "/api/kv/../files/./x" = "/api/files/x".
Proof. reflexivity. Qed.

Example pathname_resolves_encoded_dots : URL.pathname "/a/%2E%2e/c" = "/c".
Proof. reflexivity. Qed.

Example pathname_of_no_path : URL.pathname EmptyString = "/".
Proof. reflexivity. Qed.

Example pathname_turns_backslash : URL.pathname "/a\b" = "/a/b".
Proof. reflexivity. Qed.

Example pathname_keeps_percent_signs : URL.pathname "/a%20b/%zz" = "/a%20b/%zz".
Proof. reflexivity. Qed.

Example pathname_encodes_latin1_as_utf8 :
  URL.pathname (String "/" (String (ascii_of_nat 233) EmptyString)) = "/%C3%A9".
Proof. reflexivity. Qed.

Example pathname_keeps_empty_segments : URL.pathname "//a//b/" = "//a//b/".
Proof. reflexivity. Qed.

Example pathname_keeps_a_plain_key :
  URL.pathname "/api/files/uploads/1700000000000-hello.txt"
  = "/api/files/uploads/1700000000000-hello.txt".
Proof. reflexivity. Qed.

Example btoa_of_latin1_agrees :
  JS16.btoa (D := list string) (JS16.latin1 "admin:secret") = Return "YWRtaW46c2VjcmV0".
Proof. reflexivity. Qed.

Example btoa_of_a_euro_sign_throws :
  JS16.btoa (D := list string) [112; 119; 8364]%N = Throw (engine_error InvalidCharacter).
Proof. reflexivity. Qed.
